(** * Control4 climate and fan entities: state reconciliation and dispatch

    A shallow embedding of [custom_components/control4/climate.py] and
    [custom_components/control4/fan.py].

    The two entity classes keep a string-keyed attribute dictionary
    ([_extra_state_attributes]), merge websocket push messages into it
    ([_update_callback]), derive read-only properties from it, and send
    commands to the Control4 director.  The Python code is dynamically
    typed and every step may raise, so the embedding works over a small
    universe of Python values and a state-and-exception monad in which the
    state written before an exception survives the exception. *)

From Stdlib Require Import Ascii QArith SpecFloat.
From stdpp Require Import base option gmap strings list fin_maps.

Set Default Proof Using "Type".
Set Warnings "-register-all".

(** ** Python values and exceptions *)

Module Py.

(** Values that a decoded websocket message or a director variable can
    hold.  A finite Python number, [int] or [float], is held by its value,
    a rational; what the arithmetic of floats does to values is written
    out under "Floats" below. *)
Inductive value : Type :=
| VNone
| VBool (b : bool)
| VNum (q : Q)
| VStr (s : string)
| VList (l : list value)
| VDict (d : gmap string value).

(** The keyword arguments of [async_set_temperature]: the three keys the
    method reads with [kwargs.get], [None] when absent.  The temperatures
    are floats, held by their values. *)
Record kwargs : Type := Kwargs {
  target_temp_low : option Q;
  target_temp_high : option Q;
  temperature : option Q;
}.

(** Exceptions.  [UpdateFailed] keeps the three interpolated parts of the
    f-string message (entity id, kwargs, original error) as fields. *)
Inductive exn : Type :=
| KeyError (key : value)
| TypeError
| AttributeError
| NameError (name : string)
| C4Exception (text : string)
| UpdateFailed (entity_id : string) (kw : kwargs) (err : exn).

Inductive result (A : Type) : Type :=
| Ok (a : A)
| Raise (e : exn).
Arguments Ok {A} a.
Arguments Raise {A} e.

Definition result_bind {A B} (r : result A) (k : A → result B) : result B :=
  match r with
  | Ok a => k a
  | Raise e => Raise e
  end.

#[export] Instance result_ret : MRet result := @Ok.
#[export] Instance result_mbind : MBind result :=
  λ A B k r, result_bind r k.

(** A computation over a mutable state [S]: it returns a value or raises,
    and in both cases leaves a state behind. *)
Definition M (S A : Type) : Type := S → result A * S.

Definition M_ret {S A} (a : A) : M S A := λ s, (Ok a, s).
Definition M_bind {S A B} (c : M S A) (k : A → M S B) : M S B :=
  λ s, match c s with
       | (Ok a, s') => k a s'
       | (Raise e, s') => (Raise e, s')
       end.

#[export] Instance M_mret {S} : MRet (M S) := @M_ret S.
#[export] Instance M_mbind {S} : MBind (M S) := λ A B k c, M_bind c k.

Definition lift {S A} (r : result A) : M S A := λ s, (r, s).
Definition raise {S A} (e : exn) : M S A := λ s, (Raise e, s).
Definition gets {S A} (f : S → A) : M S A := λ s, (Ok (f s), s).
Definition modify {S} (f : S → S) : M S unit := λ s, (Ok tt, f s).
Definition pass {S} : M S unit := M_ret tt.

(** Evaluating a read-only property of the state. *)
Definition read {S A} (p : S → result A) : M S A := λ s, (p s, s).

(** ** Operators on values *)

(** [needle in hay] for two strings: substring test. *)
Fixpoint str_contains (needle hay : string) : bool :=
  String.prefix needle hay ||
  match hay with
  | EmptyString => false
  | String _ rest => str_contains needle rest
  end.

(** [v == s] for a string literal [s]; never raises. *)
Definition eq_str (v : value) (s : string) : bool :=
  match v with
  | VStr t => String.eqb t s
  | _ => false
  end.

(** [v == q] for a numeric literal; [True == 1] and [False == 0]. *)
Definition eq_num (v : value) (q : Q) : bool :=
  match v with
  | VNum p => Qeq_bool p q
  | VBool b => Qeq_bool (if b then 1 else 0) q
  | _ => false
  end.

(** [key in container] for a string literal [key]. *)
Definition contains (key : string) (container : value) : result bool :=
  match container with
  | VDict d => Ok (bool_decide (is_Some (d !! key)))
  | VStr s => Ok (str_contains key s)
  | VList l => Ok (existsb (λ x, eq_str x key) l)
  | VNone | VBool _ | VNum _ => Raise TypeError
  end.

(** [container[key]] for a string literal [key]. *)
Definition getitem (container : value) (key : string) : result value :=
  match container with
  | VDict d =>
      match d !! key with
      | Some v => Ok v
      | None => Raise (KeyError (VStr key))
      end
  | _ => Raise TypeError
  end.

(** [container.pop(key)] for a string literal [key]: the removed value and
    the container after the removal. *)
Definition pop (container : value) (key : string) : result (value * value) :=
  match container with
  | VDict d =>
      match d !! key with
      | Some v => Ok (v, VDict (delete key d))
      | None => Raise (KeyError (VStr key))
      end
  | VList _ => Raise TypeError
  | _ => Raise AttributeError
  end.

(** [key in table] and [table[key]] for a module-level dict with string
    keys and an arbitrary value as [key]: lists and dicts are unhashable. *)
Definition table_contains {A} (table : gmap string A) (key : value)
  : result bool :=
  match key with
  | VStr s => Ok (bool_decide (is_Some (table !! s)))
  | VList _ | VDict _ => Raise TypeError
  | VNone | VBool _ | VNum _ => Ok false
  end.

Definition table_getitem {A} (table : gmap string A) (key : value)
  : result A :=
  match key with
  | VStr s =>
      match table !! s with
      | Some a => Ok a
      | None => Raise (KeyError key)
      end
  | VList _ | VDict _ => Raise TypeError
  | VNone | VBool _ | VNum _ => Raise (KeyError key)
  end.

(** *** Floats

    A Python [float] is an IEEE 754 binary64 number, and [+], [-], [abs]
    and [<] on floats are the operations of that standard: the exact
    result rounded to the nearest float, ties to even.  They are taken
    from the standard library's specification of floating-point
    arithmetic, at the precision and the exponent range of binary64. *)
Definition prec : Z := 53.
Definition emax : Z := 1024.

(** [float(q)]: the float nearest to [q], which is the float of value [q]
    when there is one.  A decimal literal such as [0.01] denotes the float
    nearest to it, and an [int] operand of a float operation is converted
    in this way. *)
Definition float_of (q : Q) : spec_float :=
  match Qnum q with
  | Z0 => S754_zero false
  | Zpos n =>
      SFdiv prec emax (S754_finite false n 0) (S754_finite false (Qden q) 0)
  | Zneg n =>
      SFdiv prec emax (S754_finite true n 0) (S754_finite false (Qden q) 0)
  end.

(** The value of a float, in lowest terms.  (An infinity or a NaN has no
    value; no sum or difference of a finite float and [2] is one.) *)
Definition value_of (f : spec_float) : Q :=
  match f with
  | S754_finite s m e =>
      Qred ((if s then -1 else 1) * inject_Z (Zpos m) * 2 ^ e)
  | _ => 0
  end.

(** [x + y] and [x - y] when one operand at least is a float. *)
Definition float_add (x y : Q) : spec_float :=
  SFadd prec emax (float_of x) (float_of y).

Definition float_sub (x y : Q) : spec_float :=
  SFsub prec emax (float_of x) (float_of y).

(** [q - v] for a float [q] and a stored value [v]. *)
Definition num_sub (q : Q) (v : value) : result spec_float :=
  match v with
  | VNum p => Ok (float_sub q p)
  | VBool b => Ok (float_sub q (if b then 1 else 0))
  | _ => Raise TypeError
  end.

(** Truth value of [kwargs.get(...)]: [None] and zero are false. *)
Definition truthy (o : option Q) : bool :=
  match o with
  | None => false
  | Some q => negb (Qeq_bool q 0)
  end.

(** Truth value of a value used as a condition. *)
Definition truth (v : value) : bool :=
  match v with
  | VNone => false
  | VBool b => b
  | VNum q => negb (Qeq_bool q 0)
  | VStr s => negb (String.eqb s EmptyString)
  | VList l => negb (bool_decide (l = []))
  | VDict d => negb (bool_decide (d = ∅))
  end.

(** Calling a value: none of the values above is callable. *)
Definition call (f : value) : result value := Raise TypeError.

(** Name resolution for a name that is not local to the function: it must
    be bound at module level.  (No name looked up this way below is a
    builtin.) *)
Definition load_global {S} (module_names : list string) (name : string)
  : M S unit :=
  if bool_decide (name ∈ module_names) then pass
  else raise (NameError name).

(** [try: body except cls as err: handler err].  When the body raises, the
    expression after [except] is evaluated first; only then is the
    exception matched against it. *)
Definition try_except {S A} (module_names : list string) (body : M S A)
    (cls : string) (matches : exn → bool) (handler : exn → M S A) : M S A :=
  λ s, match body s with
       | (Ok a, s') => (Ok a, s')
       | (Raise e, s') =>
           match load_global module_names cls s' with
           | (Ok _, s'') =>
               if matches e then handler e s'' else (Raise e, s'')
           | (Raise e', s'') => (Raise e', s'')
           end
       end.

(** [s.split(sep)] for a one-character separator: the pieces between the
    separators, in order; a string without separator is its only piece. *)
Fixpoint split_on (sep : Ascii.ascii) (s : string) : list string :=
  match s with
  | EmptyString => [EmptyString]
  | String c rest =>
      if Ascii.eqb c sep then EmptyString :: split_on sep rest
      else
        match split_on sep rest with
        | piece :: pieces => String c piece :: pieces
        | [] => [String c EmptyString]
        end
  end.

(** [v.split(sep)]: only strings have the method. *)
Definition str_split (v : value) (sep : Ascii.ascii) : result (list string) :=
  match v with
  | VStr s => Ok (split_on sep s)
  | _ => Raise AttributeError
  end.

Definition as_num (v : value) : option Q :=
  match v with
  | VNum q => Some q
  | VBool b => Some (if b then 1 else 0)%Q
  | _ => None
  end.

(** [a == b] on values: numbers (and booleans) by numeric value, strings
    by characters, lists element by element, dicts by keys and values;
    values of different kinds are unequal.  Never raises. *)
Fixpoint py_eq (a b : value) {struct a} : bool :=
  match a, b with
  | VNone, VNone => true
  | VStr s, VStr t => String.eqb s t
  | VList l, VList k =>
      (fix go (l k : list value) : bool :=
         match l, k with
         | [], [] => true
         | x :: l', y :: k' => py_eq x y && go l' k'
         | _, _ => false
         end) l k
  | VDict d, VDict e =>
      Nat.eqb (size d) (size e) &&
      map_fold (λ key x acc,
                  acc && match e !! key with
                         | Some y => py_eq x y
                         | None => false
                         end) true d
  | (VNum _ | VBool _), (VNum _ | VBool _) =>
      match as_num a, as_num b with
      | Some p, Some q => Qeq_bool p q
      | _, _ => false
      end
  | _, _ => false
  end.

End Py.

Import Py.

(** ** Constants of the host platform used by the two files *)

Module HA.

(** [homeassistant.components.climate.HVACMode]. *)
Inductive HVACMode : Type :=
| OFF | HEAT | COOL | HEAT_COOL | AUTO | DRY | FAN_ONLY.

#[export] Instance HVACMode_eq_dec : EqDecision HVACMode.
Proof. solve_decision. Defined.

(** [homeassistant.components.climate]: [FAN_ON], [FAN_AUTO],
    [FAN_DIFFUSE]. *)
Definition FAN_ON : string := "on".
Definition FAN_AUTO : string := "auto".
Definition FAN_DIFFUSE : string := "diffuse".

(** [homeassistant.components.climate.HVACAction]. *)
Module HVACAction.
Inductive t : Type :=
| COOLING | DEFROSTING | DRYING | FAN | HEATING | IDLE | OFF | PREHEATING.
End HVACAction.

End HA.

Import HA.

(** ** The entity base class and its surroundings *)

Module Control4Entity.

(** Commands of the director API objects ([C4Climate], [C4Fan]). *)
Inductive command : Type :=
| setHvacMode (mode : string)
| setFanMode (mode : string)
| setHeatSetpoint (temp : Q)
| setCoolSetpoint (temp : Q)
| setSpeed (speed : value)
| setPreset (preset : value).

Inductive log_level : Type := DEBUG | ERROR.

(** The entity object together with what it has done to its surroundings:
    the commands it has sent, the records it has logged and the state
    refreshes it has scheduled. *)
Record state : Type := State {
  entity_id : string;
  _attr_available : bool;
  _extra_state_attributes : gmap string value;
  scheduled_updates : nat;
  hub_calls : list command;
  log_records : list (log_level * string);
}.

Definition set_available (b : bool) : M state unit :=
  modify (λ s, State (entity_id s) b (_extra_state_attributes s)
                 (scheduled_updates s) (hub_calls s) (log_records s)).

(** [self._extra_state_attributes[key] = v]. *)
Definition set_attr (key : string) (v : value) : M state unit :=
  modify (λ s, State (entity_id s) (_attr_available s)
                 (<[key := v]> (_extra_state_attributes s))
                 (scheduled_updates s) (hub_calls s) (log_records s)).

(** [self._extra_state_attributes[key]]. *)
Definition attr (s : state) (key : string) : result value :=
  getitem (VDict (_extra_state_attributes s)) key.

Definition has_attr (s : state) (key : string) : bool :=
  bool_decide (is_Some (_extra_state_attributes s !! key)).

Definition schedule_update_ha_state : M state unit :=
  modify (λ s, State (entity_id s) (_attr_available s)
                 (_extra_state_attributes s)
                 (S (scheduled_updates s)) (hub_calls s) (log_records s)).

(** [_LOGGER.debug(fmt, ...)] and [_LOGGER.exception(fmt, ...)] once their
    arguments are evaluated. *)
Definition logger (level : log_level) (fmt : string) : M state unit :=
  modify (λ s, State (entity_id s) (_attr_available s)
                 (_extra_state_attributes s) (scheduled_updates s)
                 (hub_calls s) (log_records s ++ [(level, fmt)])).

(** Awaiting a command on the object returned by [create_api_object]: the
    command goes out, and the director (given what it was sent before)
    accepts it or raises. *)
Definition send (hub : list command → command → result unit)
    (c : command) : M state unit :=
  λ s, (hub (hub_calls s) c,
        State (entity_id s) (_attr_available s) (_extra_state_attributes s)
          (scheduled_updates s) (hub_calls s ++ [c]) (log_records s)).

(** Modelled from the spec: [Control4Entity.__init__] (in the package's
    [__init__.py]) is missing; the Attribute Store is "created at
    device-object construction, seeded from an initial snapshot". *)
Definition __init__ (idx : string) (device_attributes : gmap string value)
  : state :=
  State idx true device_attributes 0 [] [].

(** Modelled from the spec: [Control4Entity._data_to_extra_state_attributes]
    (in the package's [__init__.py]) is missing; the Update Reducer copies
    "each of a fixed set of recognized field names present in the payload"
    and leaves "untouched keys from previous updates intact", so the
    helper adds nothing to the store. *)
Definition _data_to_extra_state_attributes (data : value) : M state unit :=
  pass.

End Control4Entity.

Import Control4Entity.

(** ** climate.py *)

Module Control4Climate.

Definition CONTROL4_HVAC_MODE_OFF : string := "Off".
Definition CONTROL4_HVAC_MODE_HEAT : string := "Heat".
Definition CONTROL4_HVAC_MODE_COOL : string := "Cool".
Definition CONTROL4_HVAC_MODE_HEAT_COOL : string := "Auto".
Definition CONTROL4_HVAC_MODE_AUX_HEAT : string := "Emergency Heat".

Definition CONTROL4_FAN_MODE_ON : string := "On".
Definition CONTROL4_FAN_MODE_AUTO : string := "Auto".
Definition CONTROL4_FAN_MODE_DIFFUSE : string := "Circulate".
Definition MIN_TEMP_RANGE : Q := 2.

(** The dict from [HVACMode] to the director's mode string, as the partial
    function it denotes. *)
Definition CONTROL4_HVAC_MODES (mode : HVACMode) : option string :=
  match mode with
  | OFF => Some CONTROL4_HVAC_MODE_OFF
  | HEAT => Some CONTROL4_HVAC_MODE_HEAT
  | COOL => Some CONTROL4_HVAC_MODE_COOL
  | HEAT_COOL => Some CONTROL4_HVAC_MODE_HEAT_COOL
  | AUTO | DRY | FAN_ONLY => None
  end.

Definition HVAC_MODES : gmap string HVACMode :=
  list_to_map [
    (CONTROL4_HVAC_MODE_OFF, OFF);
    (CONTROL4_HVAC_MODE_HEAT, HEAT);
    (CONTROL4_HVAC_MODE_AUX_HEAT, HEAT);
    (CONTROL4_HVAC_MODE_COOL, COOL);
    (CONTROL4_HVAC_MODE_HEAT_COOL, HEAT_COOL)
  ].

Definition CONTROL4_FAN_MODES : gmap string string :=
  list_to_map [
    (FAN_ON, CONTROL4_FAN_MODE_ON);
    (FAN_AUTO, CONTROL4_FAN_MODE_AUTO);
    (FAN_DIFFUSE, CONTROL4_FAN_MODE_DIFFUSE)
  ].

Definition FAN_MODES : gmap string string :=
  list_to_map [
    (CONTROL4_FAN_MODE_ON, FAN_ON);
    (CONTROL4_FAN_MODE_AUTO, FAN_AUTO);
    (CONTROL4_FAN_MODE_DIFFUSE, FAN_DIFFUSE)
  ].

Definition CONTROL4_PROXY : string := "thermostatV2".

(** Every name bound at module level in climate.py, by its imports,
    assignments and definitions.  The import of [C4Exception] is commented
    out in the source, so the name is not in the list. *)
Definition module_names : list string := [
  "annotations"; "logging"; "Any"; "C4Climate";
  "ATTR_TARGET_TEMP_HIGH"; "ATTR_TARGET_TEMP_LOW"; "FAN_AUTO";
  "FAN_DIFFUSE"; "FAN_ON"; "ClimateEntity"; "ClimateEntityDescription";
  "ClimateEntityFeature"; "HVACAction"; "HVACMode";
  "ATTR_TEMPERATURE"; "UnitOfTemperature"; "PRECISION_HALVES";
  "PRECISION_WHOLE"; "CONF_SCAN_INTERVAL";
  "ConfigEntry"; "HomeAssistant"; "AddEntitiesCallback";
  "DataUpdateCoordinator"; "UpdateFailed";
  "percentage_to_ranged_value"; "ranged_value_to_percentage";
  "Control4Entity"; "get_items_of_category";
  "CONF_DIRECTOR"; "CONTROL4_ENTITY_TYPE"; "DOMAIN";
  "director_get_entry_variables"; "_LOGGER";
  "CONTROL4_CATEGORY"; "CONTROL4_PROXY";
  "CONTROL4_HVAC_MODE_OFF"; "CONTROL4_HVAC_MODE_HEAT";
  "CONTROL4_HVAC_MODE_COOL"; "CONTROL4_HVAC_MODE_HEAT_COOL";
  "CONTROL4_HVAC_MODE_AUX_HEAT";
  "CONTROL4_FAN_MODE_ON"; "CONTROL4_FAN_MODE_AUTO";
  "CONTROL4_FAN_MODE_DIFFUSE"; "MIN_TEMP_RANGE";
  "CONTROL4_HVAC_MODES"; "HVAC_MODES"; "CONTROL4_FAN_MODES"; "FAN_MODES";
  "async_setup_entry"; "Control4Climate"
].

(** [Control4Climate.__init__]: the base initialiser, then
    [self._extra_state_attributes["aux_mode_active"] = False]. *)
Definition __init__ (idx : string) (device_attributes : gmap string value)
  : state :=
  snd (set_attr "aux_mode_active" (VBool false)
         (Control4Entity.__init__ idx device_attributes)).

(** [if src in data: self._extra_state_attributes[dst] = data[src]]. *)
Definition copy_field (data : value) (src dst : string) : M state unit :=
  present ← lift (contains src data);
  if present : bool then
    v ← lift (getitem data src);
    set_attr dst v
  else pass.

Section update.

(** The base-class helper called at the end of a data message. *)
Variable helper : value → M state unit.

Definition _update_callback_with (message : value) : M state unit :=
  (match message with
   | VBool false => set_available false
   | _ =>
       evtName ← lift (getitem message "evtName");
       if eq_str evtName "OnDataToUI" then
         set_available true;;
         data ← lift (getitem message "data");
         logger DEBUG "Climate Event Data Received: %s";;
         copy_field data "hvac_state" "HVAC_STATE";;
         copy_field data "humidity" "HUMIDITY";;
         copy_field data "setpoint_heat" "HEAT_SETPOINT";;
         copy_field data "setpoint_heat_f" "HEAT_SETPOINT_F";;
         copy_field data "setpoint_heat_c" "HEAT_SETPOINT_C";;
         copy_field data "setpoint_cool" "COOL_SETPOINT";;
         copy_field data "setpoint_cool_f" "COOL_SETPOINT_F";;
         copy_field data "setpoint_cool_c" "COOL_SETPOINT_C";;
         copy_field data "current_temperature" "CURRENT_TEMPERATURE";;
         copy_field data "temperature" "TEMPERATURE";;
         copy_field data "current_temperature_f" "CURRENT_TEMPERATURE_F";;
         copy_field data "current_temperature_c" "CURRENT_TEMPERATURE_C";;
         copy_field data "hvac_mode" "HVAC_MODE";;
         copy_field data "fan_mode" "FAN_MODE";;
         copy_field data "fan_state" "FAN_STATE";;
         helper data
       else pass
   end);;
  schedule_update_ha_state.

(** The entity after a sequence of push messages; a callback that raises
    leaves the entity as it was at the raise. *)
Definition receive_with (s : state) (messages : list value) : state :=
  fold_left (λ s m, (_update_callback_with m s).2) messages s.

End update.

Definition _update_callback : value → M state unit :=
  _update_callback_with _data_to_extra_state_attributes.

Definition receive : state → list value → state :=
  receive_with _data_to_extra_state_attributes.

(** *** Read-only properties *)

Definition aux_mode_active (s : state) : result value :=
  attr s "aux_mode_active".

Definition current_temperature (s : state) : result value :=
  attr s "TEMPERATURE_F".

Definition hvac_mode (s : state) : result HVACMode :=
  raw ← attr s "HVAC_MODE";
  if eq_str raw EmptyString then Ok OFF
  else
    raw ← attr s "HVAC_MODE";
    known ← table_contains HVAC_MODES raw;
    if negb known then Ok OFF
    else
      raw ← attr s "HVAC_MODE";
      table_getitem HVAC_MODES raw.

Definition target_temperature (s : state) : result value :=
  let rest : result value :=
    mode ← hvac_mode s;
    if bool_decide (mode = COOL) && has_attr s "COOL_SETPOINT_F"
    then attr s "COOL_SETPOINT_F"
    else Ok VNone in
  mode ← hvac_mode s;
  if bool_decide (mode = HEAT) && has_attr s "HEAT_SETPOINT_F"
  then attr s "HEAT_SETPOINT_F"
  else rest.

Definition target_temperature_high (s : state) : result value :=
  mode ← hvac_mode s;
  if bool_decide (mode ≠ HEAT_COOL) then Ok VNone
  else attr s "COOL_SETPOINT_F".

Definition target_temperature_low (s : state) : result value :=
  mode ← hvac_mode s;
  if bool_decide (mode ≠ HEAT_COOL) then Ok VNone
  else attr s "HEAT_SETPOINT_F".

Definition current_humidity (s : state) : result value :=
  attr s "HUMIDITY".

Definition fan_mode (s : state) : result value :=
  raw ← attr s "FAN_MODE";
  known ← table_contains FAN_MODES raw;
  if known : bool then
    raw ← attr s "FAN_MODE";
    translated ← table_getitem FAN_MODES raw;
    Ok (VStr translated)
  else Ok VNone.

Definition hvac_action (s : state) : result HVACAction.t :=
  hvac_state ← attr s "HVAC_STATE";
  cooling ← contains "Cool" hvac_state;
  if cooling : bool then Ok HVACAction.COOLING
  else
    heating ← contains "Heat" hvac_state;
    if heating : bool then Ok HVACAction.HEATING
    else Ok HVACAction.OFF.

(** One round of the loop of [hvac_modes]. *)
Definition add_mode (active_modes : list HVACMode) (mode : string)
  : list HVACMode :=
  match HVAC_MODES !! mode with
  | Some translated =>
      if bool_decide (translated ∉ active_modes)
      then active_modes ++ [translated]
      else active_modes
  | None => active_modes
  end.

Definition hvac_modes (s : state) : result (list HVACMode) :=
  raw ← attr s "HVAC_MODES_LIST";
  c4modes ← str_split raw ","%char;
  let active_modes := fold_left add_mode c4modes [] in
  if bool_decide (length active_modes = 0%nat)
  then Ok (active_modes ++ [OFF])
  else Ok active_modes.

Definition is_aux_heat (s : state) : result bool :=
  raw ← attr s "HVAC_MODE";
  contains "Emergency" raw.

(** *** Local commands *)

Definition async_turn_aux_heat_off : M state unit :=
  set_attr "aux_mode_active" (VBool false).

Definition async_turn_aux_heat_on : M state unit :=
  set_attr "aux_mode_active" (VBool true).

(** *** Commands *)

Section dispatch.

(** The director behind [create_api_object].  Building the API object
    ([C4Climate(self.entry_data[CONF_DIRECTOR], self._idx)]) is taken to
    succeed; what can fail is awaiting a command on it. *)
Variable hub : list command → command → result unit.

(** [hvac_mode] is a parameter here, so the logging call in the last
    branch finds it. *)
Definition async_set_hvac_mode (hvac_mode : HVACMode) : M state unit :=
  load_global module_names "_LOGGER";;
  logger DEBUG "set hvac mode: %s";;
  if bool_decide (hvac_mode = HEAT) then
    aux ← read aux_mode_active;
    if truth aux then
      load_global module_names "_LOGGER";;
      logger DEBUG "set hvac mode with aux: %s";;
      send hub (setHvacMode CONTROL4_HVAC_MODE_AUX_HEAT)
    else
      send hub (setHvacMode CONTROL4_HVAC_MODE_HEAT)
  else
    match CONTROL4_HVAC_MODES hvac_mode with
    | Some c4_mode => send hub (setHvacMode c4_mode)
    | None =>
        load_global module_names "_LOGGER";;
        logger ERROR "Request for unsupported hvac mode received:: %s"
    end.

Definition async_set_fan_mode (fan_mode : string) : M state unit :=
  if bool_decide (is_Some (CONTROL4_FAN_MODES !! fan_mode)) then
    c4_mode ← lift (table_getitem CONTROL4_FAN_MODES (VStr fan_mode));
    send hub (setFanMode c4_mode)
  else
    load_global module_names "_LOGGER";;
    load_global module_names "hvac_mode";;
    logger ERROR "Request for unsupported hvac mode received:: %s".

Definition is_C4Exception (e : exn) : bool :=
  match e with
  | C4Exception _ => true
  | _ => false
  end.

(** The body of the [try] statement of [async_set_temperature]. *)
Definition set_temperature_body (low_temp high_temp temp : option Q)
  : M state unit :=
  mode ← read hvac_mode;
  if bool_decide (mode = HEAT_COOL) then
    if truthy low_temp && truthy high_temp then
      match low_temp, high_temp with
      | Some low, Some high =>
          '(low, high) ←
            (if SFltb (float_sub high low) (float_of MIN_TEMP_RANGE) then
               previous ← read target_temperature_high;
               diff ← lift (num_sub high previous);
               if SFltb (SFabs diff) (float_of (1 # 100)) then
                 mret (low, value_of (float_add low MIN_TEMP_RANGE))
               else
                 mret (value_of (float_sub high MIN_TEMP_RANGE), high)
             else mret (low, high));
          send hub (setHeatSetpoint low);;
          send hub (setCoolSetpoint high)
      | _, _ => pass
      end
    else pass
  else
    mode ← read hvac_mode;
    if bool_decide (mode = COOL) && truthy temp then
      match temp with
      | Some t => send hub (setCoolSetpoint t)
      | None => pass
      end
    else
      mode ← read hvac_mode;
      if bool_decide (mode = HEAT) && truthy temp then
        match temp with
        | Some t => send hub (setHeatSetpoint t)
        | None => pass
        end
      else pass.

Definition async_set_temperature (kw : kwargs) : M state unit :=
  let low_temp := target_temp_low kw in
  let high_temp := target_temp_high kw in
  let temp := temperature kw in
  try_except module_names
    (set_temperature_body low_temp high_temp temp)
    "C4Exception" is_C4Exception
    (λ err,
       load_global module_names "UpdateFailed";;
       eid ← gets entity_id;
       raise (UpdateFailed eid kw err)).

End dispatch.

(** *** Discovery *)

(** The arguments [async_setup_entry] builds an entity from (the config
    entry and its data apart). *)
Record entity_args : Type := EntityArgs {
  arg_name : value;
  arg_idx : value;
  arg_device_name : value;
  arg_device_manufacturer : value;
  arg_device_model : value;
  arg_device_id : value;
  arg_device_area : value;
  arg_device_attributes : gmap string value;
}.

Section setup.

(** [CONTROL4_ENTITY_TYPE] comes from the package's const.py, which is not
    among the sources: it is a parameter. *)
Variable CONTROL4_ENTITY_TYPE : value.

(** [director_get_entry_variables(hass, entry, item_id)], awaited. *)
Variable director_get_entry_variables : value → result (gmap string value).

(** The inner loop over the listing: the manufacturer, name and model of
    the last record whose id equals the parent id, [found] when there is
    none. *)
Fixpoint find_parent (items_of_category : list value)
    (item_parent_id : value) (found : value * value * value)
  : result (value * value * value) :=
  match items_of_category with
  | [] => Ok found
  | parent_item :: rest =>
      parent_id ← getitem parent_item "id";
      if py_eq parent_id item_parent_id then
        item_manufacturer ← getitem parent_item "manufacturer";
        item_device_name ← getitem parent_item "name";
        item_model ← getitem parent_item "model";
        find_parent rest item_parent_id
          (item_manufacturer, item_device_name, item_model)
      else find_parent rest item_parent_id found
  end.

(** The body of the [try] statement for one record: [None] for the
    [continue] of the [else] branch; otherwise the record's id and the
    entity arguments read from the listing, which still lack the
    attributes fetched after the [try]. *)
Definition inspect (items_of_category : list value) (item : value)
  : result (option (value * (gmap string value → entity_args))) :=
  item_type ← getitem item "type";
  if py_eq item_type CONTROL4_ENTITY_TYPE then
    item_proxy ← getitem item "proxy";
    if eq_str item_proxy CONTROL4_PROXY then
      item_name ← getitem item "name";
      item_id ← getitem item "id";
      item_area ← getitem item "roomName";
      item_parent_id ← getitem item "parentId";
      '(item_manufacturer, item_device_name, item_model) ←
        find_parent items_of_category item_parent_id (VNone, VNone, VNone);
      Ok (Some (item_id,
                EntityArgs item_name item_id item_device_name
                  item_manufacturer item_model item_parent_id item_area))
    else Ok None
  else Ok None.

(** The outer loop.  Only [KeyError] is caught; the state is the log. *)
Fixpoint setup_loop (items_of_category items : list value)
    (entity_list : list entity_args)
  : M (list (log_level * string)) (list entity_args) :=
  match items with
  | [] => mret entity_list
  | item :: rest =>
      match inspect items_of_category item with
      | Raise (KeyError _) =>
          modify (λ log,
            log ++ [(ERROR,
              "Unknown device properties received from Control4: %s")]);;
          setup_loop items_of_category rest entity_list
      | Raise e => raise e
      | Ok None => setup_loop items_of_category rest entity_list
      | Ok (Some (item_id, build)) =>
          item_attributes ← lift (director_get_entry_variables item_id);
          setup_loop items_of_category rest
            (entity_list ++ [build item_attributes])
      end
  end.

(** [async_setup_entry] from the listing returned by
    [get_items_of_category]: the entities handed to
    [async_add_entities]. *)
Definition async_setup_entry (items_of_category : list value)
  : M (list (log_level * string)) (list entity_args) :=
  setup_loop items_of_category items_of_category [].

End setup.

End Control4Climate.

(** ** fan.py *)

Module Control4Fan.

(** The callback's frame: the entity and the message object it was handed.
    The callback pops fields out of the message, so the object the caller
    still holds afterwards is the one left in the frame. *)
Record frame : Type := Frame {
  self : state;
  message : value;
}.

Definition on_self {A} (c : M state A) : M frame A :=
  λ f, let '(r, s) := c (self f) in (r, Frame s (message f)).

(** [data[outer].pop(inner)] on the message held in the frame, where
    [data = message["data"]]: the nested dict loses the key in place.  The
    variables [data], [fan_state] and [fan_setup] of the callback are
    references into the message; below they are the values read when the
    variable was bound, which is the same thing wherever they are used,
    because the only mutation before the second stanza is under the key
    ["fan_state"] and the second stanza reads the key ["fan_setup"]. *)
Definition pop_nested (outer inner : string) : M frame value :=
  λ f, match message f with
       | VDict msg =>
           match msg !! "data" with
           | Some (VDict data) =>
               match data !! outer with
               | Some sub =>
                   match pop sub inner with
                   | Ok (v, sub') =>
                       (Ok v,
                        Frame (self f)
                          (VDict (<["data" :=
                             VDict (<[outer := sub']> data)]> msg)))
                   | Raise e => (Raise e, f)
                   end
               | None => (Raise (KeyError (VStr outer)), f)
               end
           | _ => (Raise TypeError, f)
           end
       | _ => (Raise TypeError, f)
       end.

Definition _update_callback : M frame unit :=
  msg ← gets message;
  (match msg with
   | VBool false => on_self (set_available false)
   | _ =>
       evtName ← lift (getitem msg "evtName");
       if eq_str evtName "OnDataToUI" then
         on_self (set_available true);;
         data ← lift (getitem msg "data");
         has_state ← lift (contains "fan_state" data);
         (if has_state : bool then
            fan_state ← lift (getitem data "fan_state");
            has_speed ← lift (contains "current_speed" fan_state);
            if has_speed : bool then
              on_self (logger DEBUG "Zupdate fan speed %s");;
              current_speed ← pop_nested "fan_state" "current_speed";
              on_self (set_attr "CURRENT_SPEED" current_speed)
            else pass
          else pass);;
         has_setup ← lift (contains "fan_setup" data);
         (if has_setup : bool then
            fan_setup ← lift (getitem data "fan_setup");
            has_preset ← lift (contains "preset_speed" fan_setup);
            if has_preset : bool then
              preset_speed ← pop_nested "fan_setup" "preset_speed";
              on_self (set_attr "PRESET_SPEED" preset_speed)
            else pass
          else pass)
       else pass
   end);;
  on_self schedule_update_ha_state.

(** *** Read-only properties *)

(** [self._extra_state_attributes["CURRENT_SPEED"] != 0]. *)
Definition is_on (s : state) : result value :=
  speed ← attr s "CURRENT_SPEED";
  Ok (VBool (negb (eq_num speed 0))).

Definition preset_mode (s : state) : result value :=
  attr s "PRESET_SPEED".

(** *** Commands *)

Section dispatch.

Variable hub : list command → command → result unit.

Definition async_turn_on : M state unit :=
  preset ← read (λ s, attr s "PRESET_SPEED");
  if negb (eq_num preset 0) then
    preset ← read (λ s, attr s "PRESET_SPEED");
    send hub (setSpeed preset)
  else
    send hub (setSpeed (VNum 1)).

Definition async_set_preset_mode (preset_mode : value) : M state unit :=
  send hub (setPreset preset_mode).

Definition async_turn_off : M state unit :=
  send hub (setSpeed (VNum 0)).

(** [if self.is_on(): ...]: [is_on] is a property, so [self.is_on] is
    already its value, and the parentheses call that value. *)
Definition async_toggle : M state unit :=
  prop ← read is_on;
  on ← lift (call prop);
  if truth on then async_turn_off
  else async_turn_on.

End dispatch.

End Control4Fan.

(** * Vocabulary of the properties *)

(** The payload of a data message: the ["data"] dict of a dict message
    whose ["evtName"] equals ["OnDataToUI"]. *)
Definition envelope_name (m : value) : option value :=
  match m with
  | VDict msg => msg !! "evtName"
  | _ => None
  end.

Definition is_data_envelope (m : value) : bool :=
  match envelope_name m with
  | Some e => eq_str e "OnDataToUI"
  | None => false
  end.

Definition payload (m : value) : option (gmap string value) :=
  if is_data_envelope m then
    match m with
    | VDict msg =>
        match msg !! "data" with
        | Some (VDict d) => Some d
        | _ => None
        end
    | _ => None
    end
  else None.

(** The fields the climate callback copies, source key and store key. *)
Definition climate_fields : list (string * string) := [
  ("hvac_state", "HVAC_STATE");
  ("humidity", "HUMIDITY");
  ("setpoint_heat", "HEAT_SETPOINT");
  ("setpoint_heat_f", "HEAT_SETPOINT_F");
  ("setpoint_heat_c", "HEAT_SETPOINT_C");
  ("setpoint_cool", "COOL_SETPOINT");
  ("setpoint_cool_f", "COOL_SETPOINT_F");
  ("setpoint_cool_c", "COOL_SETPOINT_C");
  ("current_temperature", "CURRENT_TEMPERATURE");
  ("temperature", "TEMPERATURE");
  ("current_temperature_f", "CURRENT_TEMPERATURE_F");
  ("current_temperature_c", "CURRENT_TEMPERATURE_C");
  ("hvac_mode", "HVAC_MODE");
  ("fan_mode", "FAN_MODE");
  ("fan_state", "FAN_STATE")
].

Definition merge_field (d : gmap string value)
    (a : gmap string value) (f : string * string) : gmap string value :=
  match d !! f.1 with
  | Some v => <[f.2 := v]> a
  | None => a
  end.

Definition merge_fields (fs : list (string * string))
    (d a : gmap string value) : gmap string value :=
  fold_left (merge_field d) fs a.

Definition with_attrs (s : state) (a : gmap string value) : state :=
  State (entity_id s) (_attr_available s) a
    (scheduled_updates s) (hub_calls s) (log_records s).

(** The value a merge writes under store key [k], if it writes one: the
    last field with that store key whose source key is in the payload. *)
Fixpoint written (fs : list (string * string)) (d : gmap string value)
    (k : string) : option value :=
  match fs with
  | [] => None
  | f :: fs =>
      match written fs d k with
      | Some v => Some v
      | None => if decide (f.2 = k) then d !! f.1 else None
      end
  end.

(** [preserves P c]: running [c] keeps the attribute store inside [P],
    whether [c] returns or raises. *)
Definition preserves {A} (P : gmap string value → Prop) (c : M state A)
  : Prop :=
  ∀ s, P (_extra_state_attributes s) →
       P (_extra_state_attributes (c s).2).

Create HintDb store discriminated.

(** The entity just before the helper runs on a data message with
    payload [d]. *)
Definition data_merged (d : gmap string value) (s : state) : state :=
  State (entity_id s) true
    (merge_fields climate_fields d (_extra_state_attributes s))
    (scheduled_updates s) (hub_calls s)
    (log_records s ++ [(DEBUG, "Climate Event Data Received: %s")]).

Section fan_vocabulary.

Import Control4Fan.

(** One stanza of the fan callback: if [data[outer]] has the key [inner],
    pop it and store it under [dst]. *)
Definition stage (debug : bool) (data : value) (outer inner dst : string)
  : M frame unit :=
  has_outer ← lift (contains outer data);
  if has_outer : bool then
    sub ← lift (getitem data outer);
    has_inner ← lift (contains inner sub);
    if has_inner : bool then
      (if debug then on_self (logger DEBUG "Zupdate fan speed %s")
       else pass);;
      v ← pop_nested outer inner;
      on_self (set_attr dst v)
    else pass
  else pass.

(** What a stanza finds under [data[outer]]. *)
Inductive probe_result : Type :=
| Skip
| Fail (e : exn)
| Take (v : value) (sub : gmap string value).

Definition probe (d : gmap string value) (outer inner : string)
  : probe_result :=
  match d !! outer with
  | None => Skip
  | Some (VDict sub) =>
      match sub !! inner with
      | Some v => Take v sub
      | None => Skip
      end
  | Some (VStr t) => if str_contains inner t then Fail AttributeError else Skip
  | Some (VList l) =>
      if existsb (λ x, eq_str x inner) l then Fail TypeError else Skip
  | Some _ => Fail TypeError
  end.

(** The effect of a stanza on the store and on the payload, and whether
    the callback goes on after it. *)
Definition stage_effect (outer inner dst : string)
    (st : gmap string value * gmap string value)
  : bool * (gmap string value * gmap string value) :=
  match probe st.2 outer inner with
  | Skip => (true, st)
  | Fail _ => (false, st)
  | Take v sub =>
      (true, (<[dst := v]> st.1, <[outer := VDict (delete inner sub)]> st.2))
  end.

(** The effect of the two stanzas, in order; the second runs only if the
    first did not raise. *)
Definition fan_effect (st : gmap string value * gmap string value)
  : gmap string value * gmap string value :=
  let '(go, st1) :=
    stage_effect "fan_state" "current_speed" "CURRENT_SPEED" st in
  if go : bool
  then (stage_effect "fan_setup" "preset_speed" "PRESET_SPEED" st1).2
  else st1.

End fan_vocabulary.

(** A director that accepts every command. *)
Definition hub_accepts (hub : list command → command → result unit) : Prop :=
  ∀ history c, hub history c = Ok tt.

(** [keeps obs c]: running [c] does not change what [obs] sees of the
    state, whether [c] returns or raises. *)
Definition keeps {S A B} (obs : S → B) (c : M S A) : Prop :=
  ∀ s, obs (c s).2 = obs s.

(** What the host platform sees of an entity: availability, attribute
    store and scheduled refreshes (not the commands sent or the log). *)
Definition entity_view (s : state)
  : bool * gmap string value * nat :=
  (_attr_available s, _extra_state_attributes s, scheduled_updates s).

(** A base-class helper that leaves the attribute store alone. *)
Definition store_inert (helper : value → M state unit) : Prop :=
  ∀ data s,
    _extra_state_attributes (helper data s).2 = _extra_state_attributes s.

(** [hay] has [needle] as a substring. *)
Definition occurs_in (needle hay : string) : Prop :=
  ∃ before after, hay = before +:+ needle +:+ after.

(** The four modes with a director counterpart. *)
Definition director_modes : list HVACMode := [OFF; HEAT; COOL; HEAT_COOL].

(** A listing record that is a mapping. *)
Definition is_record (item : value) : Prop := ∃ d, item = VDict d.

(** How an entity handed to the platform arises from the listing: from a
    record of the right type and proxy, whose fields and fetched
    attributes it carries. *)
Definition built_from (entity_type : value)
    (director : value → result (gmap string value))
    (items : list value) (e : Control4Climate.entity_args) : Prop :=
  ∃ d : gmap string value,
    VDict d ∈ items ∧
    (∃ item_type, d !! "type" = Some item_type ∧
                  py_eq item_type entity_type = true) ∧
    d !! "proxy" = Some (VStr Control4Climate.CONTROL4_PROXY) ∧
    d !! "name" = Some (Control4Climate.arg_name e) ∧
    d !! "id" = Some (Control4Climate.arg_idx e) ∧
    d !! "roomName" = Some (Control4Climate.arg_device_area e) ∧
    d !! "parentId" = Some (Control4Climate.arg_device_id e) ∧
    director (Control4Climate.arg_idx e)
      = Ok (Control4Climate.arg_device_attributes e).

(** Where the device name, manufacturer and model of an entity come from:
    a record whose id equals the entity's parent id, or nowhere. *)
Definition device_from (items : list value)
    (e : Control4Climate.entity_args) : Prop :=
  (Control4Climate.arg_device_manufacturer e = VNone ∧
   Control4Climate.arg_device_name e = VNone ∧
   Control4Climate.arg_device_model e = VNone) ∨
  ∃ parent : gmap string value,
    VDict parent ∈ items ∧
    (∃ parent_id, parent !! "id" = Some parent_id ∧
                  py_eq parent_id (Control4Climate.arg_device_id e) = true) ∧
    parent !! "manufacturer"
      = Some (Control4Climate.arg_device_manufacturer e) ∧
    parent !! "name" = Some (Control4Climate.arg_device_name e) ∧
    parent !! "model" = Some (Control4Climate.arg_device_model e).

(** The value of the float that the decimal literal [q] denotes, as in
    [63.1]: the float nearest to [q]. *)
Definition float_literal (q : Q) : Q := value_of (float_of q).

(** The record logged for a listing entry that lacks a field. *)
Definition skipped_record : log_level * string :=
  (ERROR, "Unknown device properties received from Control4: %s").

Create HintDb keeps discriminated.

(** * Properties *)

(** ** The store effect of a data message *)

Section merge_facts.

Implicit Types (d a : gmap string value) (fs : list (string * string)).

Lemma lookup_merge_field d a f k :
  merge_field d a f !! k =
  match (if decide (f.2 = k) then d !! f.1 else None) with
  | Some v => Some v
  | None => a !! k
  end.
Proof.
  unfold merge_field. case_decide as Hk.
  - destruct (d !! f.1); [|done]. subst k. apply lookup_insert_eq.
  - destruct (d !! f.1); [|done]. by apply lookup_insert_ne.
Qed.

Lemma lookup_merge_fields fs d a k :
  merge_fields fs d a !! k =
  match written fs d k with
  | Some v => Some v
  | None => a !! k
  end.
Proof.
  revert a. induction fs as [|f fs IH]; intros a; [done|].
  change (merge_fields (f :: fs) d a)
    with (merge_fields fs d (merge_field d a f)).
  cbn [written]. rewrite IH. destruct (written fs d k); [done|].
  apply lookup_merge_field.
Qed.

Lemma written_other fs d k : k ∉ fs.*2 → written fs d k = None.
Proof.
  induction fs as [|f fs IH]; [done|].
  rewrite fmap_cons, not_elem_of_cons. intros [Hne Hk].
  cbn. rewrite IH by done. by case_decide.
Qed.

Lemma merge_fields_lookup_other fs d a k :
  k ∉ fs.*2 → merge_fields fs d a !! k = a !! k.
Proof.
  intros Hk. by rewrite lookup_merge_fields, written_other.
Qed.

(** Merging the same payload again changes nothing. *)
Lemma merge_fields_idemp fs d a :
  merge_fields fs d (merge_fields fs d a) = merge_fields fs d a.
Proof.
  apply map_eq. intros k. rewrite !lookup_merge_fields.
  by destruct (written fs d k).
Qed.

End merge_facts.

Section preserves_facts.

Context (P : gmap string value → Prop).

Lemma preserves_bind {A B} (c : M state A) (k : A → M state B) :
  preserves P c → (∀ a, preserves P (k a)) → preserves P (c ≫= k).
Proof.
  intros Hc Hk s Hs. specialize (Hc s Hs).
  unfold mbind, M_mbind, M_bind. destruct (c s) as [[a|e] s']; [|done].
  by apply Hk.
Qed.

Lemma preserves_ret {A} (a : A) : preserves P (mret a).
Proof. by intros s Hs. Qed.

Lemma preserves_pass : preserves P pass.
Proof. by intros s Hs. Qed.

Lemma preserves_lift {A} (r : result A) : preserves P (lift r).
Proof. by intros s Hs. Qed.

Lemma preserves_raise {A} (e : exn) : preserves P (raise (A:=A) e).
Proof. by intros s Hs. Qed.

Lemma preserves_read {A} (p : state → result A) : preserves P (read p).
Proof. by intros s Hs. Qed.

Lemma preserves_gets {A} (p : state → A) : preserves P (gets p).
Proof. by intros s Hs. Qed.

Lemma preserves_set_available b : preserves P (set_available b).
Proof. by intros s Hs. Qed.

Lemma preserves_logger level fmt : preserves P (logger level fmt).
Proof. by intros s Hs. Qed.

Lemma preserves_schedule : preserves P schedule_update_ha_state.
Proof. by intros s Hs. Qed.

Lemma preserves_send hub c : preserves P (send hub c).
Proof. by intros s Hs. Qed.

Lemma preserves_load_global names name :
  preserves P (load_global names name).
Proof. intros s Hs. unfold load_global. by case_bool_decide. Qed.

Lemma preserves_if {A} (b : bool) (c1 c2 : M state A) :
  (b = true → preserves P c1) → (b = false → preserves P c2) →
  preserves P (if b then c1 else c2).
Proof. destruct b; auto. Qed.

Lemma preserves_bind_lift {A B} (r : result A) (k : A → M state B) :
  (∀ a, r = Ok a → preserves P (k a)) → preserves P (lift r ≫= k).
Proof.
  intros Hk s Hs. unfold mbind, M_mbind, M_bind, lift.
  destruct r as [a|e]; [|done]. by apply Hk.
Qed.

Lemma preserves_set_attr k v :
  (∀ a, P a → P (<[k := v]> a)) → preserves P (set_attr k v).
Proof. intros Hins s Hs. by apply Hins. Qed.

(** A field is copied only out of a dict: on any other payload the test or
    the subscript raises before the store is written. *)
Lemma preserves_copy_field data src dst :
  (∀ d v, data = VDict d → d !! src = Some v → ∀ a, P a → P (<[dst := v]> a)) →
  preserves P (Control4Climate.copy_field data src dst).
Proof.
  intros Hins s Hs.
  unfold Control4Climate.copy_field, mbind, M_mbind, M_bind, lift.
  destruct data as [|b|q|t|l|d]; cbn; try done.
  - by destruct (str_contains src t).
  - by destruct (existsb _ l).
  - destruct (d !! src) as [v|] eqn:Hv; cbn; [|done].
    by eapply Hins.
Qed.

End preserves_facts.

#[local] Hint Resolve preserves_ret preserves_pass preserves_lift
  preserves_raise preserves_read preserves_gets preserves_set_available
  preserves_logger preserves_schedule preserves_send preserves_load_global
  : store.

Lemma eq_str_true v s : eq_str v s = true ↔ v = VStr s.
Proof.
  destruct v as [|b|q|t|l|d]; cbn; try (split; [discriminate|congruence]).
  rewrite String.eqb_eq. split; congruence.
Qed.

Lemma not_data_envelope m :
  envelope_name m ≠ Some (VStr "OnDataToUI") → is_data_envelope m = false.
Proof.
  unfold is_data_envelope. destruct (envelope_name m) as [e|]; [|done].
  intros He. apply not_true_is_false. rewrite eq_str_true. congruence.
Qed.

(** ** The climate callback *)

Section climate_callback.

Variable helper : value → M state unit.

Local Abbreviation callback := (Control4Climate._update_callback_with helper).

(** The callback keeps the store inside any set that is closed under the
    writes a dict payload can cause, provided the helper does. *)
Lemma update_callback_preserves (P : gmap string value → Prop) m :
  (∀ d dst v a, payload m = Some d → dst ∈ climate_fields.*2 →
                P a → P (<[dst := v]> a)) →
  (∀ data, preserves P (helper data)) →
  preserves P (callback m).
Proof.
  intros Hins Hhelper. unfold Control4Climate._update_callback_with.
  assert (∀ data src dst,
            getitem m "evtName" ≫= (λ e, Ok (eq_str e "OnDataToUI")) = Ok true →
            getitem m "data" = Ok data →
            dst ∈ climate_fields.*2 →
            preserves P (Control4Climate.copy_field data src dst)) as Hcopy.
  { intros data src dst He Hdata Hdst. apply preserves_copy_field.
    intros d v -> _ a. apply (Hins d); [|done].
    unfold payload, is_data_envelope, envelope_name.
    destruct m as [|b|q|t|l|msg]; try done. cbn in He, Hdata.
    destruct (msg !! "evtName") as [e|]; [|done]. cbn in He.
    injection He as ->. by destruct (msg !! "data") as [[]|]; simplify_eq. }
  apply preserves_bind; [|auto with store].
  destruct m as [|[|]|q|t|l|msg];
    first
      [ apply preserves_set_available
      | apply preserves_bind_lift; intros evtName HevtName;
        apply preserves_if; intros Heq; [|auto with store];
        apply preserves_bind; [auto with store|intros _];
        apply preserves_bind_lift; intros data Hdata;
        repeat (apply preserves_bind;
                [first [ apply Hcopy;
                         [by rewrite HevtName; cbn; rewrite Heq
                         |done
                         |cbn; by repeat first [left | right]]
                       | auto with store ]
                |intros ?]);
        apply Hhelper ].
Qed.

End climate_callback.

Lemma with_attrs_same s : with_attrs s (_extra_state_attributes s) = s.
Proof. by destruct s. Qed.

Lemma copy_field_dict d src dst s :
  Control4Climate.copy_field (VDict d) src dst s =
  (Ok tt, with_attrs s (merge_field d (_extra_state_attributes s) (src, dst))).
Proof.
  unfold Control4Climate.copy_field, merge_field, mbind, M_mbind, M_bind, lift.
  cbn. destruct (d !! src) as [v|]; cbn; [done|].
  by rewrite with_attrs_same.
Qed.

Lemma bind_copy_field_dict {B} d src dst (k : unit → M state B)
    eid av a n calls log :
  (Control4Climate.copy_field (VDict d) src dst ≫= k)
    (State eid av a n calls log) =
  k tt (State eid av (merge_field d a (src, dst)) n calls log).
Proof.
  unfold mbind, M_mbind, M_bind. by rewrite copy_field_dict.
Qed.

Section climate_data.

Variable helper : value → M state unit.

Lemma update_callback_data msg e d s :
  msg !! "evtName" = Some e → eq_str e "OnDataToUI" = true →
  msg !! "data" = Some (VDict d) →
  Control4Climate._update_callback_with helper (VDict msg) s =
  (helper (VDict d);; schedule_update_ha_state) (data_merged d s).
Proof.
  intros He Heq Hd. destruct s as [eid av a n calls log].
  unfold Control4Climate._update_callback_with.
  unfold mbind at 1 2. unfold M_mbind at 1 2. unfold M_bind at 1 2.
  unfold lift at 1. cbn [getitem]. rewrite He, Heq.
  unfold mbind at 1 2. unfold M_mbind at 1 2. unfold M_bind at 1 2.
  unfold set_available at 1, modify at 1, lift at 1. cbn [getitem].
  rewrite Hd.
  unfold mbind at 1. unfold M_mbind at 1. unfold M_bind at 1.
  unfold logger at 1, modify at 1.
  cbn [entity_id _attr_available _extra_state_attributes scheduled_updates
       hub_calls log_records].
  rewrite !bind_copy_field_dict.
  reflexivity.
Qed.

End climate_data.

(** ** The fan callback *)

Section fan_callback.

Import Control4Fan.

Lemma update_callback_stages f :
  _update_callback f =
  (msg ← gets message;
   (match msg with
    | VBool false => on_self (set_available false)
    | _ =>
        evtName ← lift (getitem msg "evtName");
        if eq_str evtName "OnDataToUI" then
          on_self (set_available true);;
          data ← lift (getitem msg "data");
          stage true data "fan_state" "current_speed" "CURRENT_SPEED";;
          stage false data "fan_setup" "preset_speed" "PRESET_SPEED"
        else pass
    end);;
   on_self schedule_update_ha_state) f.
Proof.
  destruct f as [s m]. unfold _update_callback, stage.
  cbv [mbind M_mbind M_bind gets lift pass M_ret message].
  destruct m as [|[|]|q|t|l|msg]; try reflexivity.
  cbn [getitem].
  destruct (msg !! "evtName") as [e|]; [|reflexivity].
  destruct (eq_str e "OnDataToUI"); [|reflexivity].
  destruct (on_self (set_available true) _) as [[[]|e'] f']; [|reflexivity].
  destruct (msg !! "data") as [data|]; [|reflexivity].
  destruct (contains "fan_state" data) as [[|]|e']; reflexivity.
Qed.

Lemma stage_run debug d0 d msg s outer inner dst :
  msg !! "data" = Some (VDict d) → d0 !! outer = d !! outer →
  ∃ r s',
    stage debug (VDict d0) outer inner dst (Frame s (VDict msg)) =
      (r, Frame s' (VDict (<["data" :=
             VDict (stage_effect outer inner dst
                      (_extra_state_attributes s, d)).2.2]> msg))) ∧
    _extra_state_attributes s' =
      (stage_effect outer inner dst (_extra_state_attributes s, d)).2.1 ∧
    (r = Ok tt ↔ (stage_effect outer inner dst
                    (_extra_state_attributes s, d)).1 = true).
Proof.
  intros Hdata Houter. destruct s as [eid av a n calls log].
  assert (<["data" := VDict d]> msg = msg) as Hid by by apply insert_id.
  unfold stage_effect, probe, stage, pop_nested, on_self, mbind, M_mbind,
    M_bind, lift, pass, M_ret, set_attr, logger, modify.
  cbn. rewrite Houter.
  destruct (d !! outer) as [[|b|q|t|l|sub]|] eqn:Hsub; cbn;
    rewrite ?Hid; try (eexists _, _; split_and!; [done..|naive_solver]).
  - destruct (str_contains inner t); cbn; rewrite ?Hid.
    + destruct debug; cbn; rewrite Hdata, Hsub; cbn;
        eexists _, _; split_and!; [done..|naive_solver].
    + eexists _, _; split_and!; [done..|naive_solver].
  - destruct (existsb _ l); cbn; rewrite ?Hid.
    + destruct debug; cbn; rewrite Hdata, Hsub; cbn;
        eexists _, _; split_and!; [done..|naive_solver].
    + eexists _, _; split_and!; [done..|naive_solver].
  - destruct (sub !! inner) as [v|] eqn:Hv; cbn; rewrite ?Hid.
    + destruct debug; cbn; rewrite Hdata, Hsub; cbn; rewrite Hv; cbn;
        eexists _, _; split_and!; [done..|naive_solver].
    + eexists _, _; split_and!; [done..|naive_solver].
Qed.

Lemma stage_not_dict debug data outer inner dst f :
  (∀ d, data ≠ VDict d) → (stage debug data outer inner dst f).2 = f.
Proof.
  intros Hnd. unfold stage, mbind, M_mbind, M_bind, lift, pass, M_ret.
  destruct data as [|b|q|t|l|d]; cbn; try done.
  - by destruct (str_contains outer t).
  - by destruct (existsb _ l).
  - by destruct (Hnd d).
Qed.

Lemma probe_insert_ne d o o' i x :
  o ≠ o' → probe (<[o := x]> d) o' i = probe d o' i.
Proof. intros Hne. unfold probe. by rewrite lookup_insert_ne. Qed.

Lemma probe_insert_taken d o i sub :
  probe (<[o := VDict (delete i sub)]> d) o i = Skip.
Proof. unfold probe. by rewrite lookup_insert_eq, lookup_delete_eq. Qed.

Lemma stage_effect_other_key o i dst o' st :
  o ≠ o' → (stage_effect o i dst st).2.2 !! o' = st.2 !! o'.
Proof.
  intros Hne. unfold stage_effect. destruct (probe st.2 o i); try done.
  cbn. by rewrite lookup_insert_ne.
Qed.

Lemma fan_callback_data s msg e d :
  msg !! "evtName" = Some e → eq_str e "OnDataToUI" = true →
  msg !! "data" = Some (VDict d) →
  ∃ r s',
    _update_callback (Frame s (VDict msg)) =
      (r, Frame s' (VDict (<["data" :=
             VDict (fan_effect (_extra_state_attributes s, d)).2]> msg))) ∧
    _extra_state_attributes s' =
      (fan_effect (_extra_state_attributes s, d)).1.
Proof.
  intros He Heq Hd. rewrite update_callback_stages.
  cbv [mbind M_mbind M_bind gets lift message]. cbn [getitem].
  rewrite He, Heq, Hd.
  set (s0 := State (entity_id s) true (_extra_state_attributes s)
               (scheduled_updates s) (hub_calls s) (log_records s)).
  change (on_self (set_available true) (Frame s (VDict msg)))
    with (Ok tt, Frame s0 (VDict msg)).
  cbv iota beta.
  destruct (stage_run true d d msg s0 "fan_state" "current_speed"
              "CURRENT_SPEED" Hd eq_refl) as (r1 & s1 & -> & Ha1 & Hok1).
  change (_extra_state_attributes s0) with (_extra_state_attributes s)
    in Ha1, Hok1 |- *.
  unfold fan_effect.
  destruct (stage_effect "fan_state" "current_speed" "CURRENT_SPEED"
              (_extra_state_attributes s, d)) as [go [a1 d1]] eqn:Heff1.
  cbn [fst snd] in Ha1, Hok1 |- *.
  assert (d !! "fan_setup" = d1 !! "fan_setup") as Hsetup.
  { pose proof (stage_effect_other_key "fan_state" "current_speed"
      "CURRENT_SPEED" "fan_setup" (_extra_state_attributes s, d)) as Hk.
    rewrite Heff1 in Hk. symmetry. by apply Hk. }
  destruct go.
  - rewrite (proj2 Hok1 eq_refl).
    destruct (stage_run false d d1 (<["data" := VDict d1]> msg) s1
                "fan_setup" "preset_speed" "PRESET_SPEED"
                (lookup_insert_eq _ _ _) Hsetup)
      as (r2 & s2 & -> & Ha2 & _).
    rewrite insert_insert_eq, Ha1 in *.
    destruct r2 as [[]|e2]; eexists _, _; (split; [reflexivity|done]).
  - destruct r1 as [[]|e1]; [discriminate (proj1 Hok1 eq_refl)|].
    eexists _, _; (split; [reflexivity|done]).
Qed.

Lemma fan_callback_no_payload s m :
  payload m = None →
  _extra_state_attributes (self (_update_callback (Frame s m)).2)
    = _extra_state_attributes s ∧
  message (_update_callback (Frame s m)).2 = m.
Proof.
  intros Hp. rewrite update_callback_stages.
  cbv [mbind M_mbind M_bind gets lift message pass M_ret].
  destruct m as [|[|]|q|t|l|msg]; try done.
  unfold payload, is_data_envelope, envelope_name in Hp. cbn [getitem].
  destruct (msg !! "evtName") as [e|]; [|done].
  destruct (eq_str e "OnDataToUI"); [|done].
  change (on_self (set_available true) (Frame s (VDict msg)))
    with (Ok tt, Frame (State (entity_id s) true (_extra_state_attributes s)
               (scheduled_updates s) (hub_calls s) (log_records s))
               (VDict msg)).
  cbv iota beta.
  destruct (msg !! "data") as [data|]; [|done].
  assert (∀ d, data ≠ VDict d) as Hnd by (intros d ->; done).
  match goal with
  | |- context [stage true data ?o ?i ?dst ?f] =>
      pose proof (stage_not_dict true data o i dst f Hnd) as H1;
      destruct (stage true data o i dst f) as [[[]|e1] f1]
  end; cbn in H1; subst; [|done].
  match goal with
  | |- context [stage false data ?o ?i ?dst ?f] =>
      pose proof (stage_not_dict false data o i dst f Hnd) as H2;
      destruct (stage false data o i dst f) as [[[]|e2] f2]
  end; cbn in H2; subst; done.
Qed.

(** Running the stanzas again, on the payload they left behind or on a
    fresh copy of the original payload, writes nothing new. *)
Lemma fan_effect_again a d :
  (fan_effect (fan_effect (a, d))).1 = (fan_effect (a, d)).1 ∧
  (fan_effect ((fan_effect (a, d)).1, d)).1 = (fan_effect (a, d)).1.
Proof.
  unfold fan_effect, stage_effect; cbn [fst snd].
  destruct (probe d "fan_state" "current_speed") as [|e1|v1 sub1] eqn:H1;
    cbn [fst snd];
    destruct (probe d "fan_setup" "preset_speed") as [|e2|v2 sub2] eqn:H2;
    cbn [fst snd];
    repeat (progress
              (rewrite ?probe_insert_taken, ?H1, ?H2;
               rewrite ?probe_insert_ne by done;
               cbn [fst snd]));
    try done.
  all: split; try done.
  all: apply map_eq; intros k; rewrite !lookup_insert;
    repeat case_decide; congruence.
Qed.

End fan_callback.

(** ** Reducer properties *)

(** The store after the climate callback (with the helper as modelled):
    a data message with a dict payload merges the recognized fields, every
    other message leaves the store as it is. *)
Lemma climate_store_effect s m :
  _extra_state_attributes (Control4Climate._update_callback m s).2 =
  match payload m with
  | Some d => merge_fields climate_fields d (_extra_state_attributes s)
  | None => _extra_state_attributes s
  end.
Proof.
  unfold Control4Climate._update_callback.
  destruct (payload m) as [d|] eqn:Hp.
  - unfold payload, is_data_envelope, envelope_name in Hp.
    destruct m as [|b|q|t|l|msg]; try done.
    destruct (msg !! "evtName") as [e|] eqn:He; [|done].
    destruct (eq_str e "OnDataToUI") eqn:Heq; [|done].
    destruct (msg !! "data") as [[|b|q|t|l|d']|] eqn:Hd; try done.
    injection Hp as ->.
    by rewrite (update_callback_data _ msg e d s He Heq Hd).
  - apply (update_callback_preserves _data_to_extra_state_attributes
             (λ a, a = _extra_state_attributes s) m); [| |done].
    + intros d dst v a Hd. congruence.
    + intros data s' Hs'. exact Hs'.
Qed.

(** C6.  A disconnect message ([False]) makes the entity unavailable and
    leaves every key and value of the attribute store as it was; the
    callback returns normally.  This holds for the climate callback,
    whatever the base-class helper does, and for the fan callback. *)
Theorem disconnect_keeps_store
    (helper : value → M state unit) (s : state) :
  let c := Control4Climate._update_callback_with helper (VBool false) s in
  let f := Control4Fan._update_callback (Control4Fan.Frame s (VBool false)) in
  c.1 = Ok tt ∧ _attr_available c.2 = false ∧
  _extra_state_attributes c.2 = _extra_state_attributes s ∧
  f.1 = Ok tt ∧ _attr_available (Control4Fan.self f.2) = false ∧
  _extra_state_attributes (Control4Fan.self f.2) = _extra_state_attributes s.
Proof. by destruct s. Qed.

(** C1 as stated fails: a dict message without the ["evtName"] key is not
    the disconnect sentinel and has no envelope name, yet both callbacks
    raise on it. *)
Lemma missing_envelope_name_raises :
  ¬ (∀ s m, m ≠ VBool false →
            envelope_name m ≠ Some (VStr "OnDataToUI") →
            (Control4Climate._update_callback m s).1 = Ok tt ∧
            (Control4Fan._update_callback (Control4Fan.Frame s m)).1 = Ok tt).
Proof.
  intros H.
  destruct (H (Control4Climate.__init__ "climate.hall" ∅) (VDict ∅))
    as [Hc _]; [done|done|].
  vm_compute in Hc. discriminate.
Qed.

(** C1, amended.  For every message that is not the disconnect sentinel
    and whose envelope name is not ["OnDataToUI"], both callbacks leave the
    attribute store unchanged; they return normally when the message
    carries an envelope name, and raise [KeyError("evtName")] when the
    message is a dict without that key. *)
Theorem unrecognized_envelope_keeps_store
    (helper : value → M state unit) (s : state) (m : value) :
  m ≠ VBool false →
  envelope_name m ≠ Some (VStr "OnDataToUI") →
  let c := Control4Climate._update_callback_with helper m s in
  let f := Control4Fan._update_callback (Control4Fan.Frame s m) in
  _extra_state_attributes c.2 = _extra_state_attributes s ∧
  _extra_state_attributes (Control4Fan.self f.2) = _extra_state_attributes s ∧
  (is_Some (envelope_name m) → c.1 = Ok tt ∧ f.1 = Ok tt) ∧
  (∀ msg, m = VDict msg → msg !! "evtName" = None →
          c.1 = Raise (KeyError (VStr "evtName")) ∧
          f.1 = Raise (KeyError (VStr "evtName"))).
Proof.
  intros Hm He. apply not_data_envelope in He.
  unfold is_data_envelope, envelope_name in *.
  destruct s as [eid av a n calls log].
  destruct m as [|[|]|q|t|l|msg]; try done;
    try (split_and!; [done|done|by intros []|done]).
  unfold Control4Climate._update_callback_with, Control4Fan._update_callback.
  cbv [mbind M_mbind M_bind gets lift pass M_ret Control4Fan.message].
  cbn [getitem].
  destruct (msg !! "evtName") as [e|] eqn:Hname.
  - rewrite He. split_and!; [done|done|done|].
    intros msg' [= <-]. congruence.
  - split_and!; [done|done|by intros []|].
    by intros msg' [= <-].
Qed.

Lemma unrecognized_envelope_keeps_store_witness :
  let s := Control4Climate.__init__ "climate.hall"
             {[ "HVAC_MODE" := VStr "Heat" ]} in
  let m := VDict {[ "evtName" := VStr "OnItemStatus" ]} in
  let c := Control4Climate._update_callback m s in
  let f := Control4Fan._update_callback (Control4Fan.Frame s m) in
  _extra_state_attributes c.2 = _extra_state_attributes s ∧
  _extra_state_attributes (Control4Fan.self f.2) = _extra_state_attributes s ∧
  c.1 = Ok tt ∧ f.1 = Ok tt.
Proof.
  intros s m.
  destruct (unrecognized_envelope_keeps_store
              _data_to_extra_state_attributes s m)
    as (Hc & Hf & Hok & _).
  - discriminate.
  - vm_compute. discriminate.
  - destruct Hok as [Hcok Hfok]; [by eexists|]. by split_and!.
Defined.

(** C9.  Applying a callback to the same push message twice leaves the
    same attribute store as applying it once: for the climate callback
    (with the helper as modelled); for the fan callback when the second
    application receives the message object the first one popped fields
    from; and for the fan callback when the second application receives a
    fresh copy of the original message. *)
Theorem update_callback_idempotent (s : state) (m : value) :
  let c1 := (Control4Climate._update_callback m s).2 in
  let f1 := (Control4Fan._update_callback (Control4Fan.Frame s m)).2 in
  _extra_state_attributes (Control4Climate._update_callback m c1).2
    = _extra_state_attributes c1 ∧
  _extra_state_attributes
    (Control4Fan.self (Control4Fan._update_callback f1).2)
    = _extra_state_attributes (Control4Fan.self f1) ∧
  _extra_state_attributes
    (Control4Fan.self
       (Control4Fan._update_callback
          (Control4Fan.Frame (Control4Fan.self f1) m)).2)
    = _extra_state_attributes (Control4Fan.self f1).
Proof.
  cbv zeta. split.
  { rewrite !climate_store_effect.
    destruct (payload m); [apply merge_fields_idemp|done]. }
  destruct (payload m) as [d|] eqn:Hp.
  - unfold payload, is_data_envelope, envelope_name in Hp.
    destruct m as [|b|q|t|l|msg]; try done.
    destruct (msg !! "evtName") as [e|] eqn:He; [|done].
    destruct (eq_str e "OnDataToUI") eqn:Heq; [|done].
    destruct (msg !! "data") as [[|b|q|t|l|d']|] eqn:Hd; try done.
    injection Hp as ->.
    destruct (fan_callback_data s msg e d He Heq Hd) as (r1 & s1 & -> & Ha1).
    cbn [snd Control4Fan.self].
    set (a := _extra_state_attributes s) in *.
    destruct (fan_effect_again a d) as [Halias Hfresh].
    split.
    + destruct (fan_callback_data s1
                  (<["data" := VDict (fan_effect (a, d)).2]> msg) e
                  (fan_effect (a, d)).2)
        as (r2 & s2 & -> & Ha2);
        [by rewrite lookup_insert_ne|done|by rewrite lookup_insert_eq|].
      cbn [snd Control4Fan.self]. rewrite Ha2, Ha1.
      by destruct (fan_effect (a, d)).
    + destruct (fan_callback_data s1 msg e d He Heq Hd)
        as (r2 & s2 & -> & Ha2).
      cbn [snd Control4Fan.self]. by rewrite Ha2, Ha1.
  - destruct (fan_callback_no_payload s m Hp) as [Ha1 Hm1].
    destruct (Control4Fan._update_callback (Control4Fan.Frame s m))
      as [r1 [s1 m1]].
    cbn [snd Control4Fan.self Control4Fan.message] in *. subst m1.
    split; by destruct (fan_callback_no_payload s1 m Hp) as [-> _].
Qed.

(** ** The current temperature *)

Section current_temperature.

Variable helper : value → M state unit.

(** Whatever helper the base class has, if it never introduces
    ["TEMPERATURE_F"] then no sequence of messages does. *)
Lemma receive_with_no_temperature_f s messages :
  (∀ data, preserves (λ a, a !! "TEMPERATURE_F" = None) (helper data)) →
  _extra_state_attributes s !! "TEMPERATURE_F" = None →
  _extra_state_attributes
    (Control4Climate.receive_with helper s messages) !! "TEMPERATURE_F"
  = None.
Proof.
  intros Hhelper. revert s.
  induction messages as [|m messages IH]; intros s Hs; [done|].
  cbn. apply IH.
  apply (update_callback_preserves helper
           (λ a, a !! "TEMPERATURE_F" = None) m); [|done|done].
  intros d dst v a _ Hdst Ha. rewrite lookup_insert_ne; [done|].
  intros ->. revert Hdst.
  change ("TEMPERATURE_F" ∉ climate_fields.*2).
  apply (bool_decide_unpack _). by vm_compute.
Qed.

End current_temperature.

(** C10.  Starting from a snapshot without ["TEMPERATURE_F"], no sequence
    of push messages makes the climate callback write that key (the helper
    being as modelled), so the [current_temperature] read raises
    [KeyError("TEMPERATURE_F")] instead of returning a value or [None]. *)
Theorem current_temperature_never_populated
    (idx : string) (snapshot : gmap string value) (messages : list value) :
  snapshot !! "TEMPERATURE_F" = None →
  let s := Control4Climate.receive
             (Control4Climate.__init__ idx snapshot) messages in
  _extra_state_attributes s !! "TEMPERATURE_F" = None ∧
  Control4Climate.current_temperature s
    = Raise (KeyError (VStr "TEMPERATURE_F")).
Proof.
  intros Hsnap s.
  assert (_extra_state_attributes s !! "TEMPERATURE_F" = None) as Hs.
  { apply receive_with_no_temperature_f.
    - intros data s' Hs'. exact Hs'.
    - cbn. by rewrite lookup_insert_ne. }
  split; [done|].
  unfold Control4Climate.current_temperature, attr, getitem. by rewrite Hs.
Qed.

Lemma current_temperature_never_populated_witness :
  let s := Control4Climate.receive
             (Control4Climate.__init__ "climate.hall"
                {[ "HVAC_MODE" := VStr "Heat" ]})
             [ VDict {[ "evtName" := VStr "OnDataToUI";
                        "data" := VDict {[ "current_temperature_f" := VNum 71;
                                           "temperature" := VNum 71 ]} ]} ] in
  _extra_state_attributes s !! "TEMPERATURE_F" = None ∧
  Control4Climate.current_temperature s
    = Raise (KeyError (VStr "TEMPERATURE_F")).
Proof.
  apply current_temperature_never_populated. reflexivity.
Defined.

(** ** Mode and setpoint reads *)

Lemma attr_lookup s key v :
  _extra_state_attributes s !! key = Some v → attr s key = Ok v.
Proof. intros H. unfold attr, getitem. by rewrite H. Qed.

(** C5.  When the stored raw HVAC mode is a string, the [hvac_mode] read
    returns [OFF] if the string is empty or is not a key of [HVAC_MODES],
    and the table's mode otherwise; ["Heat"] and ["Emergency Heat"] are
    both keys for [HEAT]. *)
Theorem hvac_mode_lookup (s : state) (raw : string) :
  _extra_state_attributes s !! "HVAC_MODE" = Some (VStr raw) →
  ((raw = EmptyString ∨ Control4Climate.HVAC_MODES !! raw = None) →
     Control4Climate.hvac_mode s = Ok OFF) ∧
  (∀ mode, raw ≠ EmptyString → Control4Climate.HVAC_MODES !! raw = Some mode →
     Control4Climate.hvac_mode s = Ok mode) ∧
  Control4Climate.HVAC_MODES !! "Heat" = Some HEAT ∧
  Control4Climate.HVAC_MODES !! "Emergency Heat" = Some HEAT.
Proof.
  intros Hraw. unfold Control4Climate.hvac_mode.
  rewrite (attr_lookup _ _ _ Hraw).
  cbv [mbind result_mbind result_bind eq_str table_contains table_getitem].
  destruct (String.eqb_spec raw EmptyString) as [->|Hne].
  - split_and!; [done|by intros mode []|done|done].
  - split_and!; [|intros mode _ Hmode; by rewrite Hmode|done|done].
    intros [?|Hnone]; [done|]. by rewrite Hnone.
Qed.

Lemma hvac_mode_lookup_witness :
  let s := Control4Climate.__init__ "climate.hall"
             {[ "HVAC_MODE" := VStr "Emergency Heat" ]} in
  Control4Climate.hvac_mode s = Ok HEAT.
Proof.
  intros s.
  destruct (hvac_mode_lookup s "Emergency Heat") as (_ & Hmode & _);
    [reflexivity|].
  apply Hmode; [discriminate|reflexivity].
Defined.

(** C4.  The [target_temperature] read returns a value other than [None]
    only when [hvac_mode] is [HEAT] and ["HEAT_SETPOINT_F"] holds that
    value, or [hvac_mode] is [COOL] and ["COOL_SETPOINT_F"] holds it; in
    every other mode it returns [None].  The [target_temperature_high] and
    [target_temperature_low] reads return [None] in every mode other than
    [HEAT_COOL]. *)
Theorem target_temperature_by_mode (s : state) :
  (∀ v, Control4Climate.target_temperature s = Ok v → v ≠ VNone →
     (Control4Climate.hvac_mode s = Ok HEAT ∧
      _extra_state_attributes s !! "HEAT_SETPOINT_F" = Some v) ∨
     (Control4Climate.hvac_mode s = Ok COOL ∧
      _extra_state_attributes s !! "COOL_SETPOINT_F" = Some v)) ∧
  (∀ mode, Control4Climate.hvac_mode s = Ok mode →
     mode ≠ HEAT → mode ≠ COOL →
     Control4Climate.target_temperature s = Ok VNone) ∧
  (∀ mode, Control4Climate.hvac_mode s = Ok mode → mode ≠ HEAT_COOL →
     Control4Climate.target_temperature_high s = Ok VNone ∧
     Control4Climate.target_temperature_low s = Ok VNone).
Proof.
  unfold Control4Climate.target_temperature,
    Control4Climate.target_temperature_high,
    Control4Climate.target_temperature_low, has_attr, attr, getitem.
  destruct (Control4Climate.hvac_mode s) as [mode|e];
    cbv [mbind result_mbind result_bind]; [|by split_and!].
  split_and!.
  - intros v.
    destruct mode; cbn;
      try (intros [= <-] Hv; by destruct Hv).
    + destruct (_extra_state_attributes s !! "HEAT_SETPOINT_F") as [h|];
        cbn; [|intros [= <-] Hv; by destruct Hv].
      intros [= ->] _. by left.
    + destruct (_extra_state_attributes s !! "COOL_SETPOINT_F") as [c|];
        cbn; [|intros [= <-] Hv; by destruct Hv].
      intros [= ->] _. by right.
  - intros mode' [= <-] Hheat Hcool. by destruct mode.
  - intros mode' [= <-] Hrange. by destruct mode.
Qed.

Lemma target_temperature_by_mode_witness :
  let s := Control4Climate.__init__ "climate.hall"
             {[ "HVAC_MODE" := VStr "Heat";
                "HEAT_SETPOINT_F" := VNum 70;
                "COOL_SETPOINT_F" := VNum 76 ]} in
  Control4Climate.hvac_mode s = Ok HEAT ∧
  Control4Climate.target_temperature s = Ok (VNum 70) ∧
  _extra_state_attributes s !! "HEAT_SETPOINT_F" = Some (VNum 70) ∧
  Control4Climate.target_temperature_high s = Ok VNone ∧
  Control4Climate.target_temperature_low s = Ok VNone.
Proof.
  intros s.
  destruct (target_temperature_by_mode s) as (Hval & _ & Hrange).
  assert (Control4Climate.hvac_mode s = Ok HEAT) as Hmode by reflexivity.
  assert (Control4Climate.target_temperature s = Ok (VNum 70)) as Hread
    by reflexivity.
  destruct (Hval (VNum 70) Hread) as [[_ Hheat]|[Hcool _]];
    [discriminate| |rewrite Hmode in Hcool; discriminate].
  destruct (Hrange HEAT Hmode) as [Hhigh Hlow]; [discriminate|].
  by split_and!.
Defined.

(** ** Commands *)

Lemma truthy_nonzero (q : Q) : ¬ (q == 0)%Q → truthy (Some q) = true.
Proof.
  intros Hq. unfold truthy.
  by rewrite negb_true_iff, <- not_true_iff_false, Qeq_bool_iff.
Qed.

(** C2 as stated fails: with low = 0 both bounds are supplied and the gap
    is below the minimum, yet nothing is dispatched, because the guard
    tests the truth value of the bounds. *)
Lemma zero_bound_not_dispatched :
  ¬ (∀ hub (s : state) (low high prev : Q),
       hub_accepts hub →
       Control4Climate.hvac_mode s = Ok HEAT_COOL →
       _extra_state_attributes s !! "COOL_SETPOINT_F" = Some (VNum prev) →
       SFltb (float_sub high low) (float_of 2) = true →
       SFltb (SFabs (float_sub high prev)) (float_of (1 # 100)) = true →
       hub_calls
         (Control4Climate.async_set_temperature hub
            (Kwargs (Some low) (Some high) None) s).2
       = hub_calls s ++
         [setHeatSetpoint low; setCoolSetpoint (value_of (float_add low 2))]).
Proof.
  intros H.
  specialize (H (λ _ _, Ok tt)
                (Control4Climate.__init__ "climate.hall"
                   {[ "HVAC_MODE" := VStr "Auto";
                      "COOL_SETPOINT_F" := VNum 1 ]})
                0%Q 1%Q 1%Q).
  discriminate H; done.
Qed.

(** C2, amended.  Under [HEAT_COOL], with both bounds supplied and nonzero,
    a numeric previous high setpoint and a director that accepts the
    commands, when the float difference high - low is below
    [MIN_TEMP_RANGE]: if the float difference between the supplied high
    and the previous high is below the float 0.01 in absolute value, the
    low bound is kept and the high bound becomes the float sum low + 2;
    otherwise the high bound is kept and the low bound becomes the float
    difference high - 2.  The heat setpoint is sent first, then the cool
    setpoint, and the call returns normally. *)
Theorem set_temperature_keeps_minimum_gap
    (hub : list command → command → result unit) (s : state)
    (low high prev : Q) (temp : option Q) :
  hub_accepts hub →
  Control4Climate.hvac_mode s = Ok HEAT_COOL →
  _extra_state_attributes s !! "COOL_SETPOINT_F" = Some (VNum prev) →
  ¬ (low == 0)%Q → ¬ (high == 0)%Q →
  SFltb (float_sub high low) (float_of 2) = true →
  let r := Control4Climate.async_set_temperature hub
             (Kwargs (Some low) (Some high) temp) s in
  r.1 = Ok tt ∧
  (SFltb (SFabs (float_sub high prev)) (float_of (1 # 100)) = true →
     hub_calls r.2 =
     hub_calls s ++
       [setHeatSetpoint low; setCoolSetpoint (value_of (float_add low 2))]) ∧
  (SFltb (SFabs (float_sub high prev)) (float_of (1 # 100)) = false →
     hub_calls r.2 =
     hub_calls s ++
       [setHeatSetpoint (value_of (float_sub high 2)); setCoolSetpoint high]).
Proof.
  intros Hhub Hmode Hprev Hlow Hhigh Hgap.
  assert (Control4Climate.target_temperature_high s = Ok (VNum prev)) as Hth.
  { unfold Control4Climate.target_temperature_high. rewrite Hmode.
    by apply attr_lookup. }
  unfold Control4Climate.async_set_temperature, try_except,
    Control4Climate.set_temperature_body.
  cbn [target_temp_low target_temp_high temperature].
  rewrite (truthy_nonzero _ Hlow), (truthy_nonzero _ Hhigh).
  cbv [mbind M_mbind M_bind read lift]. rewrite Hmode.
  rewrite (bool_decide_eq_true_2 (HEAT_COOL = HEAT_COOL)) by done.
  unfold Control4Climate.MIN_TEMP_RANGE.
  cbn [andb]. rewrite Hgap. cbv beta iota. rewrite Hth. cbn [num_sub].
  destruct (SFltb (SFabs (float_sub high prev)) (float_of (1 # 100)));
    cbv [mret M_mret M_ret send]; cbn [hub_calls];
    rewrite !Hhub; cbn [fst snd hub_calls].
  - split_and!; [done|by rewrite <- app_assoc|done].
  - split_and!; [done|done|by rewrite <- app_assoc].
Qed.

(** The scenario of the claim: low 68, high 69, previous high 69. *)
Lemma set_temperature_keeps_minimum_gap_witness :
  let s := Control4Climate.__init__ "climate.hall"
             {[ "HVAC_MODE" := VStr "Auto";
                "HEAT_SETPOINT_F" := VNum 66;
                "COOL_SETPOINT_F" := VNum 69 ]} in
  let r := Control4Climate.async_set_temperature (λ _ _, Ok tt)
             (Kwargs (Some 68%Q) (Some 69%Q) None) s in
  r.1 = Ok tt ∧
  hub_calls r.2 = [setHeatSetpoint 68; setCoolSetpoint 70].
Proof.
  intros s r.
  destruct (set_temperature_keeps_minimum_gap (λ _ _, Ok tt) s
              68%Q 69%Q 69%Q None) as (Hok & Hnear & _).
  - by intros history c.
  - reflexivity.
  - reflexivity.
  - by intros H.
  - by intros H.
  - reflexivity.
  - split; [exact Hok|]. apply Hnear. reflexivity.
Defined.

(** C3: what the code does when the body of the [try] raises.  The name
    [C4Exception] is not bound in the module, so evaluating the [except]
    clause raises [NameError]; no [UpdateFailed] is ever raised, whatever
    the director raised. *)
Theorem hub_failure_raises_name_error
    (hub : list command → command → result unit) (s : state)
    (kw : kwargs) (e : exn) :
  (Control4Climate.set_temperature_body hub
     (target_temp_low kw) (target_temp_high kw) (temperature kw) s).1
    = Raise e →
  (Control4Climate.async_set_temperature hub kw s).1
    = Raise (NameError "C4Exception").
Proof.
  unfold Control4Climate.async_set_temperature, try_except.
  destruct (Control4Climate.set_temperature_body _ _ _ _ s) as [[[]|e'] s'];
    [discriminate|].
  intros _. reflexivity.
Qed.

(** The director rejects the cool setpoint of a single-setpoint request
    under [COOL]. *)
Lemma hub_failure_raises_name_error_witness :
  let s := Control4Climate.__init__ "climate.hall"
             {[ "HVAC_MODE" := VStr "Cool";
                "COOL_SETPOINT_F" := VNum 74 ]} in
  let hub := λ (_ : list command) (_ : command),
               Raise (A:=unit) (C4Exception "director timeout") in
  let r := Control4Climate.async_set_temperature hub
             (Kwargs None None (Some 72%Q)) s in
  r.1 = Raise (NameError "C4Exception") ∧
  hub_calls r.2 = [setCoolSetpoint 72].
Proof.
  intros s hub r. split; [|reflexivity].
  apply (hub_failure_raises_name_error hub s _
           (C4Exception "director timeout")).
  reflexivity.
Defined.

(** C7: what the code does for a fan mode that is not a key of
    [CONTROL4_FAN_MODES].  Nothing is sent, but the argument list of the
    logging call names [hvac_mode], which is bound neither in the method
    nor in the module: the method raises [NameError] before anything is
    logged. *)
Theorem unsupported_fan_mode_raises
    (hub : list command → command → result unit) (s : state)
    (fan_mode : string) :
  Control4Climate.CONTROL4_FAN_MODES !! fan_mode = None →
  Control4Climate.async_set_fan_mode hub fan_mode s
    = (Raise (NameError "hvac_mode"), s).
Proof.
  intros Hmode. unfold Control4Climate.async_set_fan_mode.
  rewrite Hmode. reflexivity.
Qed.

Lemma unsupported_fan_mode_raises_witness :
  let s := Control4Climate.__init__ "climate.hall"
             {[ "FAN_MODE" := VStr "Auto" ]} in
  let r := Control4Climate.async_set_fan_mode (λ _ _, Ok tt) "low" s in
  r.1 = Raise (NameError "hvac_mode") ∧
  hub_calls r.2 = [] ∧ log_records r.2 = [].
Proof.
  intros s r. unfold r.
  rewrite (unsupported_fan_mode_raises (λ _ _, Ok tt) s "low");
    [by split_and!|reflexivity].
Defined.

Lemma logger_is_bound : "_LOGGER" ∈ Control4Climate.module_names.
Proof. apply (bool_decide_unpack _). by vm_compute. Qed.

(** The sibling method [async_set_hvac_mode] does what C7 describes: an
    unsupported mode is logged, nothing is sent and nothing is raised. *)
Lemma unsupported_hvac_mode_logged
    (hub : list command → command → result unit) (s : state)
    (mode : HVACMode) :
  mode ≠ HEAT → Control4Climate.CONTROL4_HVAC_MODES mode = None →
  let r := Control4Climate.async_set_hvac_mode hub mode s in
  r.1 = Ok tt ∧ hub_calls r.2 = hub_calls s ∧
  log_records r.2 =
    log_records s ++
      [(DEBUG, "set hvac mode: %s");
       (ERROR, "Request for unsupported hvac mode received:: %s")].
Proof.
  intros Hheat Hnone. unfold Control4Climate.async_set_hvac_mode.
  rewrite Hnone, (bool_decide_eq_false_2 _ Hheat).
  split_and!; [reflexivity|reflexivity|].
  cbv [mbind M_mbind M_bind load_global logger modify pass M_ret].
  rewrite (bool_decide_eq_true_2 _ logger_is_bound).
  cbn [log_records snd]. by rewrite <- app_assoc.
Qed.

(** The sibling commands of the toggle do dispatch. *)
Lemma turn_on_off_dispatch (hub : list command → command → result unit)
    (s : state) (preset : value) :
  _extra_state_attributes s !! "PRESET_SPEED" = Some preset →
  hub_calls (Control4Fan.async_turn_off hub s).2
    = hub_calls s ++ [setSpeed (VNum 0)] ∧
  hub_calls (Control4Fan.async_turn_on hub s).2
    = hub_calls s ++
      [setSpeed (if eq_num preset 0 then VNum 1 else preset)].
Proof.
  intros Hpreset. split; [reflexivity|].
  unfold Control4Fan.async_turn_on.
  cbv [mbind M_mbind M_bind read]. rewrite (attr_lookup _ _ _ Hpreset).
  destruct (eq_num preset 0); cbn [negb]; cbv beta iota;
    by rewrite ?(attr_lookup _ _ _ Hpreset).
Qed.

(** C8: what the code does on a toggle.  [is_on] is a property, so
    [self.is_on()] calls the boolean it evaluates to: whenever the current
    speed is known the method raises [TypeError] and sends nothing,
    whether the fan is on or off. *)
Theorem toggle_raises_type_error
    (hub : list command → command → result unit) (s : state)
    (speed : value) :
  _extra_state_attributes s !! "CURRENT_SPEED" = Some speed →
  Control4Fan.async_toggle hub s = (Raise TypeError, s).
Proof.
  intros Hspeed. unfold Control4Fan.async_toggle, Control4Fan.is_on.
  cbv [mbind M_mbind M_bind read]. by rewrite (attr_lookup _ _ _ Hspeed).
Qed.

Lemma toggle_raises_type_error_witness :
  let s := Control4Entity.__init__ "fan.porch"
             {[ "CURRENT_SPEED" := VNum 2; "PRESET_SPEED" := VNum 3 ]} in
  let r := Control4Fan.async_toggle (λ _ _, Ok tt) s in
  r.1 = Raise TypeError ∧ hub_calls r.2 = [].
Proof.
  intros s r. unfold r.
  rewrite (toggle_raises_type_error (λ _ _, Ok tt) s (VNum 2));
    [by split|reflexivity].
Defined.

(** ** The model on the scenarios of the specification *)

Example climate_data_message_merges :
  let s := Control4Climate.__init__ "climate.hall"
             {[ "HVAC_MODE" := VStr "Off"; "HUMIDITY" := VNum 40 ]} in
  let m := VDict {[ "evtName" := VStr "OnDataToUI";
                    "data" := VDict {[ "hvac_mode" := VStr "Heat";
                                       "setpoint_heat_f" := VNum 70 ]} ]} in
  let s' := (Control4Climate._update_callback m s).2 in
  Control4Climate.hvac_mode s' = Ok HEAT ∧
  Control4Climate.target_temperature s' = Ok (VNum 70) ∧
  Control4Climate.target_temperature_high s' = Ok VNone ∧
  _extra_state_attributes s' !! "HUMIDITY" = Some (VNum 40) ∧
  scheduled_updates s' = 1%nat.
Proof. by vm_compute. Qed.

Example fan_data_message_pops :
  let s := Control4Entity.__init__ "fan.porch"
             {[ "CURRENT_SPEED" := VNum 0; "PRESET_SPEED" := VNum 0 ]} in
  let m := VDict {[ "evtName" := VStr "OnDataToUI";
                    "data" := VDict {[ "fan_state" :=
                                         VDict {[ "current_speed" := VNum 3;
                                                  "is_on" := VBool true ]} ]} ]} in
  let f := (Control4Fan._update_callback (Control4Fan.Frame s m)).2 in
  _extra_state_attributes (Control4Fan.self f) !! "CURRENT_SPEED"
    = Some (VNum 3) ∧
  Control4Fan.is_on (Control4Fan.self f) = Ok (VBool true) ∧
  Control4Fan.message f =
    VDict {[ "evtName" := VStr "OnDataToUI";
             "data" := VDict {[ "fan_state" :=
                                  VDict {[ "is_on" := VBool true ]} ]} ]}.
Proof. by vm_compute. Qed.

Example turn_on_uses_preset :
  let on_with preset :=
    hub_calls
      (Control4Fan.async_turn_on (λ _ _, Ok tt)
         (Control4Entity.__init__ "fan.porch"
            {[ "CURRENT_SPEED" := VNum 0; "PRESET_SPEED" := preset ]})).2 in
  on_with (VNum 3) = [setSpeed (VNum 3)] ∧
  on_with (VNum 0) = [setSpeed (VNum 1)].
Proof. by vm_compute. Qed.

(** Float arithmetic at work.  In binary64 the difference 65.1 - 63.1 is
    below 2 and the sum 63.1 + 2 is the float 65.1, which lies below the
    rational 65.1; the difference 60.01 - 60.0 is below the float 0.01.
    In exact arithmetic the first difference is 2 and the last is 0.01. *)
Example float_arithmetic_rounds :
  let f := float_literal in
  SFltb (float_sub (f (651 # 10)) (f (631 # 10))) (float_of 2) = true ∧
  value_of (float_add (f (631 # 10)) 2) = f (651 # 10) ∧
  (f (651 # 10) < 651 # 10)%Q ∧
  SFltb (SFabs (float_sub (f (6001 # 100)) 60)) (float_of (1 # 100)) = true ∧
  ((651 # 10) - (631 # 10) == 2)%Q ∧ ((6001 # 100) - 60 == 1 # 100)%Q.
Proof. by vm_compute. Qed.

(** So a request of 59.0 and 60.01 against a previous high of 60.0 counts
    as keeping the high bound: the low bound is held and the high bound
    becomes 61.0. *)
Example set_temperature_tolerance_in_floats :
  let s := Control4Climate.__init__ "climate.hall"
             {[ "HVAC_MODE" := VStr "Auto"; "COOL_SETPOINT_F" := VNum 60 ]} in
  hub_calls
    (Control4Climate.async_set_temperature (λ _ _, Ok tt)
       (Kwargs (Some 59%Q) (Some (float_literal (6001 # 100))) None) s).2
  = [setHeatSetpoint 59; setCoolSetpoint 61].
Proof. by vm_compute. Qed.

(** * Further properties of the two files *)

(** ** Substrings and comma-separated lists *)

Lemma prefix_spec (needle hay : string) :
  String.prefix needle hay = true ↔ ∃ after, hay = needle +:+ after.
Proof.
  revert hay. induction needle as [|a needle IH]; intros hay.
  - split; [by exists hay|by destruct hay].
  - destruct hay as [|b hay]; cbn.
    { split; [done|by intros [after ?]]. }
    destruct (Ascii.ascii_dec a b) as [->|Hab].
    + rewrite IH. split; intros [after Hafter]; exists after.
      * by rewrite Hafter.
      * by injection Hafter.
    + split; [done|]. intros [after Hafter]. injection Hafter. congruence.
Qed.

Lemma str_contains_spec (needle hay : string) :
  str_contains needle hay = true ↔ occurs_in needle hay.
Proof.
  unfold occurs_in. induction hay as [|c hay IH]; cbn [str_contains].
  - rewrite orb_false_r, prefix_spec. split.
    + intros [after ->]. by exists EmptyString, after.
    + intros ([|b before] & after & Heq); [by exists after|done].
  - rewrite orb_true_iff, prefix_spec, IH. split.
    + intros [[after ->]|(before & after & ->)].
      * by exists EmptyString, after.
      * by exists (String c before), after.
    + intros ([|b before] & after & Heq).
      * left. by exists after.
      * right. injection Heq as -> ->. by exists before, after.
Qed.

Lemma str_contains_false (needle hay : string) :
  str_contains needle hay = false ↔ ¬ occurs_in needle hay.
Proof. by rewrite <- str_contains_spec, not_true_iff_false. Qed.

(** ** Reads of the climate entity *)

Lemma HVAC_MODES_values key mode :
  Control4Climate.HVAC_MODES !! key = Some mode → mode ∈ director_modes.
Proof.
  intros Hkey. apply elem_of_list_to_map_2 in Hkey.
  unfold director_modes.
  repeat (apply elem_of_cons in Hkey as [[= -> ->]|Hkey];
          [apply (bool_decide_unpack _); by vm_compute|]).
  by apply elem_of_nil in Hkey.
Qed.

Section hvac_modes_loop.

Implicit Types (active : list HVACMode) (tokens : list string).

Lemma add_mode_NoDup active token :
  NoDup active → NoDup (Control4Climate.add_mode active token).
Proof.
  intros Hnd. unfold Control4Climate.add_mode.
  destruct (Control4Climate.HVAC_MODES !! token) as [m|]; [|done].
  case_bool_decide as Hm; [|done].
  apply NoDup_app. split_and!; [done| |apply NoDup_singleton].
  intros x Hx ->%list_elem_of_singleton. done.
Qed.

Lemma elem_of_add_mode active token m :
  m ∈ Control4Climate.add_mode active token ↔
  m ∈ active ∨ Control4Climate.HVAC_MODES !! token = Some m.
Proof.
  unfold Control4Climate.add_mode.
  destruct (Control4Climate.HVAC_MODES !! token) as [m'|] eqn:Htoken.
  - case_bool_decide as Hm.
    + rewrite elem_of_app, list_elem_of_singleton. split.
      * intros [?| ->]; [by left|by right].
      * intros [?|[= ->]]; [by left|by right].
    + split; [by left|]. by intros [?|[= ->]].
  - split; [by left|]. by intros [?|?].
Qed.

Lemma fold_add_mode_NoDup tokens active :
  NoDup active → NoDup (fold_left Control4Climate.add_mode tokens active).
Proof.
  revert active. induction tokens as [|token tokens IH]; intros active Hnd;
    [done|].
  cbn. by apply IH, add_mode_NoDup.
Qed.

Lemma elem_of_fold_add_mode tokens active m :
  m ∈ fold_left Control4Climate.add_mode tokens active ↔
  m ∈ active ∨
  ∃ token, token ∈ tokens ∧ Control4Climate.HVAC_MODES !! token = Some m.
Proof.
  revert active. induction tokens as [|token tokens IH]; intros active; cbn.
  - split; [by left|]. intros [?|(token & Hin & _)]; [done|].
    by apply elem_of_nil in Hin.
  - rewrite IH, elem_of_add_mode. split.
    + intros [[?|?]|(t & Hin & Ht)]; [by left| |].
      * right. exists token. split; [left|done].
      * right. exists t. split; [by right|done].
    + intros [?|(t & Hin & Ht)]; [by left; left|].
      apply elem_of_cons in Hin as [->|Hin]; [by left; right|].
      right. by exists t.
Qed.

End hvac_modes_loop.

(** X1.  Whatever the stored list of modes, when the [hvac_modes] read
    returns, the list it returns is not empty, has no duplicates and holds
    only modes that the director knows ([OFF], [HEAT], [COOL],
    [HEAT_COOL]), hence at most four. *)
Theorem hvac_modes_wellformed (s : state) (modes : list HVACMode) :
  Control4Climate.hvac_modes s = Ok modes →
  modes ≠ [] ∧ NoDup modes ∧
  (∀ m, m ∈ modes → m ∈ director_modes) ∧
  (length modes ≤ 4)%nat.
Proof.
  unfold Control4Climate.hvac_modes.
  destruct (attr s "HVAC_MODES_LIST") as [raw|e]; [|done].
  cbv [mbind result_mbind result_bind].
  destruct (str_split raw ",") as [tokens|e]; [|done].
  set (active := fold_left Control4Climate.add_mode tokens []).
  assert (NoDup active) as Hnd by apply fold_add_mode_NoDup, NoDup_nil_2.
  assert (∀ m, m ∈ active → m ∈ director_modes) as Hsub.
  { intros m [Hm|(token & _ & Htoken)]%elem_of_fold_add_mode.
    - by apply elem_of_nil in Hm.
    - by eapply HVAC_MODES_values. }
  assert (∀ l : list HVACMode,
            NoDup l → (∀ m, m ∈ l → m ∈ director_modes) →
            (length l ≤ 4)%nat) as Hlen.
  { intros l Hl Hin.
    apply (submseteq_length l director_modes), NoDup_submseteq; done. }
  case_bool_decide as Hempty; intros [= <-].
  - apply nil_length_inv in Hempty. rewrite Hempty. cbn.
    split_and!; [done|apply NoDup_singleton| |lia].
    intros m ->%list_elem_of_singleton.
    apply (bool_decide_unpack _). by vm_compute.
  - split_and!; [|done|done|by apply Hlen].
    intros ->. done.
Qed.

Lemma hvac_modes_wellformed_witness :
  let s := Control4Climate.__init__ "climate.hall"
             {[ "HVAC_MODES_LIST" := VStr "Off,Heat,Cool,Auto,Emergency Heat" ]} in
  Control4Climate.hvac_modes s = Ok [OFF; HEAT; COOL; HEAT_COOL] ∧
  NoDup [OFF; HEAT; COOL; HEAT_COOL].
Proof.
  intros s.
  assert (Control4Climate.hvac_modes s = Ok [OFF; HEAT; COOL; HEAT_COOL])
    as Hmodes by (by vm_compute).
  split; [exact Hmodes|].
  by destruct (hvac_modes_wellformed s _ Hmodes) as (_ & Hnd & _).
Defined.

(** X2.  For a stored string, the [hvac_modes] read always returns, and a
    mode is in the returned list exactly when some comma-separated entry
    of the string is a key of [HVAC_MODES] for it, or when the mode is
    [OFF] and no entry is a key at all. *)
Theorem hvac_modes_membership (s : state) (raw : string) :
  _extra_state_attributes s !! "HVAC_MODES_LIST" = Some (VStr raw) →
  ∃ modes,
    Control4Climate.hvac_modes s = Ok modes ∧
    ∀ m, m ∈ modes ↔
      (∃ token, token ∈ split_on "," raw ∧
                Control4Climate.HVAC_MODES !! token = Some m) ∨
      (m = OFF ∧
       ∀ token, token ∈ split_on "," raw →
                Control4Climate.HVAC_MODES !! token = None).
Proof.
  intros Hraw. unfold Control4Climate.hvac_modes.
  rewrite (attr_lookup _ _ _ Hraw).
  cbv [mbind result_mbind result_bind str_split].
  set (tokens := split_on "," raw).
  set (active := fold_left Control4Climate.add_mode tokens []).
  assert (∀ m, m ∈ active ↔
            ∃ token, token ∈ tokens ∧
                     Control4Climate.HVAC_MODES !! token = Some m) as Hin.
  { intros m. unfold active. rewrite elem_of_fold_add_mode.
    split; [intros [Hm|?]; [by apply elem_of_nil in Hm|done]|by right]. }
  case_bool_decide as Hempty; eexists; (split; [reflexivity|]); intros m.
  - apply nil_length_inv in Hempty.
    assert (∀ token, token ∈ tokens →
              Control4Climate.HVAC_MODES !! token = None) as Hnone.
    { intros token Htoken.
      destruct (Control4Climate.HVAC_MODES !! token) as [m'|] eqn:Hm';
        [|done].
      assert (m' ∈ active) as Hm by (apply Hin; eauto).
      rewrite Hempty in Hm. by apply elem_of_nil in Hm. }
    rewrite Hempty. cbn [app]. rewrite list_elem_of_singleton. split.
    + intros ->. by right.
    + intros [(token & Htoken & Hm)|[-> _]]; [|done].
      specialize (Hnone token Htoken). congruence.
  - rewrite Hin. split; [by left|].
    intros [?|[-> Hnone]]; [done|]. exfalso. apply Hempty.
    destruct active as [|m' active'] eqn:Hactive; [done|].
    assert (m' ∈ m' :: active') as Hm by left.
    apply Hin in Hm as (token & Htoken & Hm).
    specialize (Hnone token Htoken). congruence.
Qed.

Lemma hvac_modes_membership_witness :
  let s := Control4Climate.__init__ "climate.hall"
             {[ "HVAC_MODES_LIST" := VStr "Heat, Cool,Emergency Heat" ]} in
  ∃ modes, Control4Climate.hvac_modes s = Ok modes ∧ HEAT ∈ modes.
Proof.
  intros s.
  destruct (hvac_modes_membership s "Heat, Cool,Emergency Heat")
    as (modes & Hmodes & Hin); [reflexivity|].
  exists modes. split; [exact Hmodes|].
  apply Hin. left. exists "Heat". split; [|reflexivity].
  apply (bool_decide_unpack _). by vm_compute.
Defined.

(** X3.  For a stored state string, [hvac_action] returns [COOLING]
    whenever ["Cool"] occurs in it, also when ["Heat"] occurs as well;
    [HEATING] when only ["Heat"] occurs; [OFF] when neither does.  The
    test is case-sensitive and never raises on a string. *)
Theorem hvac_action_of_state_string (s : state) (text : string) :
  _extra_state_attributes s !! "HVAC_STATE" = Some (VStr text) →
  (occurs_in "Cool" text →
     Control4Climate.hvac_action s = Ok HVACAction.COOLING) ∧
  (¬ occurs_in "Cool" text → occurs_in "Heat" text →
     Control4Climate.hvac_action s = Ok HVACAction.HEATING) ∧
  (¬ occurs_in "Cool" text → ¬ occurs_in "Heat" text →
     Control4Climate.hvac_action s = Ok HVACAction.OFF).
Proof.
  intros Hstate. unfold Control4Climate.hvac_action.
  rewrite (attr_lookup _ _ _ Hstate).
  cbv [mbind result_mbind result_bind contains].
  split_and!.
  - intros Hcool%str_contains_spec. by rewrite Hcool.
  - intros Hcool%str_contains_false Hheat%str_contains_spec.
    by rewrite Hcool, Hheat.
  - intros Hcool%str_contains_false Hheat%str_contains_false.
    by rewrite Hcool, Hheat.
Qed.

Lemma hvac_action_of_state_string_witness :
  let s := Control4Climate.__init__ "climate.hall"
             {[ "HVAC_STATE" := VStr "Stage 1 Cool (Heat pump)" ]} in
  Control4Climate.hvac_action s = Ok HVACAction.COOLING.
Proof.
  intros s.
  destruct (hvac_action_of_state_string s "Stage 1 Cool (Heat pump)")
    as (Hcool & _); [reflexivity|].
  apply Hcool. by exists "Stage 1 ", " (Heat pump)".
Defined.

Lemma hvac_mode_of_key (s : state) (raw : string) (mode : HVACMode) :
  _extra_state_attributes s !! "HVAC_MODE" = Some (VStr raw) →
  Control4Climate.HVAC_MODES !! raw = Some mode →
  Control4Climate.hvac_mode s = Ok mode.
Proof.
  intros Hraw Hmode. unfold Control4Climate.hvac_mode.
  rewrite (attr_lookup _ _ _ Hraw).
  cbv [mbind result_mbind result_bind eq_str table_contains table_getitem].
  destruct (String.eqb_spec raw EmptyString) as [->|Hne]; [done|].
  by rewrite Hmode.
Qed.

(** X4.  When the stored raw mode is a key of [HVAC_MODES], the
    [is_aux_heat] read is true only for ["Emergency Heat"], and then the
    [hvac_mode] read is [HEAT]. *)
Theorem aux_heat_only_in_heat_mode
    (s : state) (raw : string) (mode : HVACMode) :
  _extra_state_attributes s !! "HVAC_MODE" = Some (VStr raw) →
  Control4Climate.HVAC_MODES !! raw = Some mode →
  Control4Climate.is_aux_heat s = Ok true →
  raw = "Emergency Heat" ∧ Control4Climate.hvac_mode s = Ok HEAT.
Proof.
  intros Hraw Hmode. rewrite (hvac_mode_of_key s raw mode Hraw Hmode).
  unfold Control4Climate.is_aux_heat. rewrite (attr_lookup _ _ _ Hraw).
  cbv [mbind result_mbind result_bind contains].
  apply elem_of_list_to_map_2 in Hmode.
  repeat (apply elem_of_cons in Hmode as [[= -> ->]|Hmode];
          [by vm_compute; intros [=]|]).
  by apply elem_of_nil in Hmode.
Qed.

Lemma aux_heat_only_in_heat_mode_witness :
  let s := Control4Climate.__init__ "climate.hall"
             {[ "HVAC_MODE" := VStr "Emergency Heat" ]} in
  Control4Climate.is_aux_heat s = Ok true ∧
  Control4Climate.hvac_mode s = Ok HEAT.
Proof.
  intros s. split; [reflexivity|].
  by destruct (aux_heat_only_in_heat_mode s "Emergency Heat" HEAT)
    as [_ Hmode].
Defined.

(** ** Commands of the climate entity *)



Lemma set_hvac_mode_heat_calls
    (hub : list command → command → result unit) (s : state) (aux : value) :
  _extra_state_attributes s !! "aux_mode_active" = Some aux →
  hub_calls (Control4Climate.async_set_hvac_mode hub HEAT s).2 =
  hub_calls s ++
    [setHvacMode (if truth aux then "Emergency Heat" else "Heat")].
Proof.
  intros Haux. destruct s as [eid av a n calls log].
  cbn [_extra_state_attributes] in Haux.
  unfold Control4Climate.async_set_hvac_mode,
    Control4Climate.aux_mode_active, attr.
  cbv [mbind M_mbind M_bind load_global logger modify pass M_ret send read
       getitem].
  rewrite (bool_decide_eq_true_2 _ logger_is_bound).
  rewrite (bool_decide_eq_true_2 (HEAT = HEAT)) by done.
  cbv beta iota. cbn [_extra_state_attributes]. rewrite Haux.
  by destruct (truth aux).
Qed.

Lemma set_hvac_mode_other_calls
    (hub : list command → command → result unit) (s : state)
    (mode : HVACMode) :
  mode ≠ HEAT →
  hub_calls (Control4Climate.async_set_hvac_mode hub mode s).2 =
  hub_calls s ++
    match Control4Climate.CONTROL4_HVAC_MODES mode with
    | Some c4_mode => [setHvacMode c4_mode]
    | None => []
    end.
Proof.
  intros Hmode. destruct s as [eid av a n calls log].
  unfold Control4Climate.async_set_hvac_mode.
  rewrite (bool_decide_eq_false_2 _ Hmode).
  cbv [mbind M_mbind M_bind load_global logger modify pass M_ret send].
  rewrite (bool_decide_eq_true_2 _ logger_is_bound).
  destruct (Control4Climate.CONTROL4_HVAC_MODES mode); cbn [hub_calls snd];
    [done|by rewrite app_nil_r].
Qed.

(** X6.  For every mode the director knows, and whatever the auxiliary
    heat flag holds, [async_set_hvac_mode] sends exactly one command,
    [setHvacMode] with a string that [HVAC_MODES] maps back to the
    requested mode, so that the [hvac_mode] read on a store holding that
    string returns the requested mode.  The string is ["Emergency Heat"]
    exactly when the mode is [HEAT] and the flag is true. *)
Theorem set_hvac_mode_round_trip
    (hub : list command → command → result unit) (s : state)
    (mode : HVACMode) (aux : value) :
  _extra_state_attributes s !! "aux_mode_active" = Some aux →
  mode ∈ director_modes →
  ∃ c4_mode,
    hub_calls (Control4Climate.async_set_hvac_mode hub mode s).2
      = hub_calls s ++ [setHvacMode c4_mode] ∧
    Control4Climate.HVAC_MODES !! c4_mode = Some mode ∧
    (c4_mode = "Emergency Heat" ↔ mode = HEAT ∧ truth aux = true) ∧
    ∀ s', _extra_state_attributes s' !! "HVAC_MODE" = Some (VStr c4_mode) →
          Control4Climate.hvac_mode s' = Ok mode.
Proof.
  intros Haux Hmode.
  assert (∀ c4_mode,
    hub_calls (Control4Climate.async_set_hvac_mode hub mode s).2
      = hub_calls s ++ [setHvacMode c4_mode] →
    Control4Climate.HVAC_MODES !! c4_mode = Some mode →
    (c4_mode = "Emergency Heat" ↔ mode = HEAT ∧ truth aux = true) →
    ∃ c4_mode,
      hub_calls (Control4Climate.async_set_hvac_mode hub mode s).2
        = hub_calls s ++ [setHvacMode c4_mode] ∧
      Control4Climate.HVAC_MODES !! c4_mode = Some mode ∧
      (c4_mode = "Emergency Heat" ↔ mode = HEAT ∧ truth aux = true) ∧
      ∀ s', _extra_state_attributes s' !! "HVAC_MODE" = Some (VStr c4_mode) →
            Control4Climate.hvac_mode s' = Ok mode) as Hpack.
  { intros c4_mode Hcalls Hback Hiff. exists c4_mode.
    split_and!; [done..|]. intros s' Hraw. by eapply hvac_mode_of_key. }
  pose proof (set_hvac_mode_other_calls hub s) as Hother.
  pose proof (set_hvac_mode_heat_calls hub s aux Haux) as Hheat.
  unfold director_modes in Hmode.
  repeat (apply elem_of_cons in Hmode as [->|Hmode]);
    [| | | |by apply elem_of_nil in Hmode].
  - apply (Hpack "Off"); [by apply Hother|done|]. by split; [|intros []].
  - destruct (truth aux) eqn:Htruth.
    + apply (Hpack "Emergency Heat"); [exact Hheat|done|done].
    + apply (Hpack "Heat"); [exact Hheat|done|].
      by split; [|intros []].
  - apply (Hpack "Cool"); [by apply Hother|done|]. by split; [|intros []].
  - apply (Hpack "Auto"); [by apply Hother|done|]. by split; [|intros []].
Qed.

Lemma set_hvac_mode_round_trip_witness :
  let s := Control4Climate.__init__ "climate.hall"
             {[ "HVAC_MODE" := VStr "Off" ]} in
  ∃ c4_mode,
    hub_calls (Control4Climate.async_set_hvac_mode (λ _ _, Ok tt)
                 HEAT_COOL s).2 = [setHvacMode c4_mode] ∧
    Control4Climate.HVAC_MODES !! c4_mode = Some HEAT_COOL.
Proof.
  intros s.
  destruct (set_hvac_mode_round_trip (λ _ _, Ok tt) s HEAT_COOL (VBool false))
    as (c4_mode & Hcalls & Hback & _).
  - reflexivity.
  - apply (bool_decide_unpack _). by vm_compute.
  - by exists c4_mode.
Defined.

(** X7.  Turning auxiliary heat on or off sends nothing to the director
    and writes only the ["aux_mode_active"] flag; the flag then decides
    what a later [async_set_hvac_mode(HEAT)] sends: ["Emergency Heat"]
    after turning it on, ["Heat"] after turning it off. *)
Theorem aux_heat_flag_selects_heat_command
    (hub : list command → command → result unit) (s : state) :
  let s_on := (Control4Climate.async_turn_aux_heat_on s).2 in
  let s_off := (Control4Climate.async_turn_aux_heat_off s).2 in
  hub_calls s_on = hub_calls s ∧ hub_calls s_off = hub_calls s ∧
  _extra_state_attributes s_on
    = <["aux_mode_active" := VBool true]> (_extra_state_attributes s) ∧
  _extra_state_attributes s_off
    = <["aux_mode_active" := VBool false]> (_extra_state_attributes s) ∧
  hub_calls (Control4Climate.async_set_hvac_mode hub HEAT s_on).2
    = hub_calls s ++ [setHvacMode "Emergency Heat"] ∧
  hub_calls (Control4Climate.async_set_hvac_mode hub HEAT s_off).2
    = hub_calls s ++ [setHvacMode "Heat"].
Proof.
  cbv zeta. split_and!; try reflexivity.
  - rewrite (set_hvac_mode_heat_calls hub _ (VBool true)); [done|].
    apply lookup_insert_eq.
  - rewrite (set_hvac_mode_heat_calls hub _ (VBool false)); [done|].
    apply lookup_insert_eq.
Qed.

(** ** What a computation leaves alone *)

Section keeps_facts.

Context {S B : Type} (obs : S → B).

Lemma keeps_bind {A C} (c : M S A) (k : A → M S C) :
  keeps obs c → (∀ a, keeps obs (k a)) → keeps obs (c ≫= k).
Proof.
  intros Hc Hk s. specialize (Hc s).
  unfold mbind, M_mbind, M_bind. destruct (c s) as [[a|e] s']; [|done].
  cbn in Hc. by rewrite Hk.
Qed.

Lemma keeps_ret {A} (a : A) : keeps obs (mret (M:=M S) a).
Proof. by intros s. Qed.

Lemma keeps_pass : keeps obs (pass (S:=S)).
Proof. by intros s. Qed.

Lemma keeps_lift {A} (r : result A) : keeps obs (lift (S:=S) r).
Proof. by intros s. Qed.

Lemma keeps_raise {A} (e : exn) : keeps obs (raise (S:=S) (A:=A) e).
Proof. by intros s. Qed.

Lemma keeps_read {A} (p : S → result A) : keeps obs (read p).
Proof. by intros s. Qed.

Lemma keeps_gets {A} (p : S → A) : keeps obs (gets p).
Proof. by intros s. Qed.

Lemma keeps_load_global names name : keeps obs (load_global (S:=S) names name).
Proof. intros s. unfold load_global. by case_bool_decide. Qed.

Lemma keeps_if {A} (b : bool) (c1 c2 : M S A) :
  keeps obs c1 → keeps obs c2 → keeps obs (if b then c1 else c2).
Proof. by destruct b. Qed.

Lemma keeps_try_except {A} names (body : M S A) cls matches handler :
  keeps obs body → (∀ e, keeps obs (handler e)) →
  keeps obs (try_except names body cls matches handler).
Proof.
  intros Hbody Hhandler s. unfold try_except.
  pose proof (Hbody s) as H1.
  destruct (body s) as [[a|e] s']; cbn in H1 |- *; [done|].
  pose proof (keeps_load_global names cls s') as H2.
  destruct (load_global names cls s') as [[[]|e'] s'']; cbn in H2 |- *;
    [|by rewrite H2].
  destruct (matches e); cbn; [|by rewrite H2].
  by rewrite Hhandler, H2.
Qed.

End keeps_facts.

Lemma keeps_view_send hub c : keeps entity_view (send hub c).
Proof. by intros s. Qed.

Lemma keeps_view_logger level fmt : keeps entity_view (logger level fmt).
Proof. by intros s. Qed.

#[local] Hint Resolve keeps_ret keeps_pass keeps_lift keeps_raise keeps_read
  keeps_gets keeps_load_global keeps_view_send keeps_view_logger : keeps.

Ltac keeps_step :=
  first
    [ apply keeps_bind; [|intros ?]
    | apply keeps_if
    | apply keeps_try_except; [|intros ?]
    | match goal with
      | |- keeps _ (match ?x with _ => _ end) => destruct x
      | |- keeps _ (let '(_, _) := ?x in _) => destruct x
      end
    | solve [auto with keeps] ].

(** X8.  No command of the climate entity or of the fan entity changes
    what the platform sees of the entity: the attribute store, the
    availability flag and the number of scheduled refreshes after the
    command are those before it, whether the director accepted the command
    or not.  (Only the two auxiliary-heat switches write a flag.) *)
Theorem commands_leave_entity_state
    (hub : list command → command → result unit) :
  (∀ kw, keeps entity_view (Control4Climate.async_set_temperature hub kw)) ∧
  (∀ mode, keeps entity_view (Control4Climate.async_set_hvac_mode hub mode)) ∧
  (∀ mode, keeps entity_view (Control4Climate.async_set_fan_mode hub mode)) ∧
  keeps entity_view (Control4Fan.async_turn_on hub) ∧
  keeps entity_view (Control4Fan.async_turn_off hub) ∧
  keeps entity_view (Control4Fan.async_toggle hub) ∧
  (∀ preset, keeps entity_view (Control4Fan.async_set_preset_mode hub preset)).
Proof.
  split_and!.
  - intros kw. unfold Control4Climate.async_set_temperature,
      Control4Climate.set_temperature_body.
    repeat keeps_step.
  - intros mode. unfold Control4Climate.async_set_hvac_mode.
    repeat keeps_step.
  - intros mode. unfold Control4Climate.async_set_fan_mode.
    repeat keeps_step.
  - unfold Control4Fan.async_turn_on. repeat keeps_step.
  - apply keeps_view_send.
  - unfold Control4Fan.async_toggle, Control4Fan.async_turn_on,
      Control4Fan.async_turn_off.
    repeat keeps_step.
  - intros preset. apply keeps_view_send.
Qed.

(** ** Setpoints *)

(** Decide the mode comparisons of a goal whose modes are known. *)
Ltac mode_tests :=
  repeat match goal with
         | |- context [bool_decide (?a = ?b)] =>
             first
               [ rewrite (bool_decide_eq_true_2 (a = b)) by done
               | rewrite (bool_decide_eq_false_2 (a = b)) by done ]
         end.

(** The handler of [async_set_temperature] never touches the state: the
    state after the method is the state after the body of its [try]. *)
Lemma set_temperature_state
    (hub : list command → command → result unit) (kw : kwargs) (s : state) :
  (Control4Climate.async_set_temperature hub kw s).2 =
  (Control4Climate.set_temperature_body hub
     (target_temp_low kw) (target_temp_high kw) (temperature kw) s).2.
Proof.
  unfold Control4Climate.async_set_temperature, try_except.
  by destruct (Control4Climate.set_temperature_body _ _ _ _ s)
    as [[[]|e] s'].
Qed.

Lemma set_temperature_body_single
    (hub : list command → command → result unit) (s : state)
    (low high : option Q) (t : Q) (mode : HVACMode) :
  Control4Climate.hvac_mode s = Ok mode → ¬ (t == 0)%Q →
  mode = COOL ∨ mode = HEAT →
  Control4Climate.set_temperature_body hub low high (Some t) s =
  send hub (if bool_decide (mode = COOL)
            then setCoolSetpoint t else setHeatSetpoint t) s.
Proof.
  intros Hmode Ht Hcases.
  unfold Control4Climate.set_temperature_body.
  cbv [mbind M_mbind M_bind read]. rewrite Hmode.
  rewrite (truthy_nonzero _ Ht).
  destruct Hcases as [-> | ->];
    repeat (mode_tests; cbn [andb]; cbv beta iota; rewrite ?Hmode);
    reflexivity.
Qed.

(** X9.  With a nonzero [temperature] in the request, under [COOL] the
    method sends exactly [setCoolSetpoint(temperature)] and under [HEAT]
    exactly [setHeatSetpoint(temperature)]; a low or high bound in the
    same request is ignored. *)
Theorem set_temperature_single_setpoint
    (hub : list command → command → result unit) (s : state)
    (kw : kwargs) (t : Q) :
  temperature kw = Some t → ¬ (t == 0)%Q →
  (Control4Climate.hvac_mode s = Ok COOL →
     hub_calls (Control4Climate.async_set_temperature hub kw s).2
       = hub_calls s ++ [setCoolSetpoint t]) ∧
  (Control4Climate.hvac_mode s = Ok HEAT →
     hub_calls (Control4Climate.async_set_temperature hub kw s).2
       = hub_calls s ++ [setHeatSetpoint t]).
Proof.
  intros Htemp Ht. rewrite set_temperature_state, Htemp.
  split; intros Hmode.
  - by rewrite (set_temperature_body_single hub s _ _ t COOL Hmode Ht);
      [|left].
  - by rewrite (set_temperature_body_single hub s _ _ t HEAT Hmode Ht);
      [|right].
Qed.

Lemma set_temperature_single_setpoint_witness :
  let s := Control4Climate.__init__ "climate.hall"
             {[ "HVAC_MODE" := VStr "Heat";
                "HEAT_SETPOINT_F" := VNum 68 ]} in
  hub_calls
    (Control4Climate.async_set_temperature (λ _ _, Ok tt)
       (Kwargs (Some 60%Q) (Some 80%Q) (Some 70%Q)) s).2
  = [setHeatSetpoint 70].
Proof.
  intros s.
  destruct (set_temperature_single_setpoint (λ _ _, Ok tt) s
              (Kwargs (Some 60%Q) (Some 80%Q) (Some 70%Q)) 70%Q)
    as [_ Hheat].
  - reflexivity.
  - by intros H.
  - apply Hheat. reflexivity.
Defined.

(** X10.  The method sends nothing, changes nothing and returns normally
    when the request does not fit the mode: under [HEAT_COOL] unless both
    bounds are supplied and nonzero (a lone [temperature] is ignored),
    under [COOL] or [HEAT] unless [temperature] is supplied and nonzero (a
    pair of bounds is ignored), and under every other mode. *)
Theorem set_temperature_ignored
    (hub : list command → command → result unit) (s : state)
    (kw : kwargs) (mode : HVACMode) :
  Control4Climate.hvac_mode s = Ok mode →
  (mode = HEAT_COOL →
     truthy (target_temp_low kw) = false ∨
     truthy (target_temp_high kw) = false) →
  (mode = COOL ∨ mode = HEAT → truthy (temperature kw) = false) →
  Control4Climate.async_set_temperature hub kw s = (Ok tt, s).
Proof.
  intros Hmode Hrange Hsingle.
  unfold Control4Climate.async_set_temperature, try_except,
    Control4Climate.set_temperature_body.
  cbv [mbind M_mbind M_bind read]. rewrite Hmode.
  destruct mode;
    repeat (mode_tests; cbn [andb]; cbv beta iota; rewrite ?Hmode);
    try reflexivity.
  - by rewrite Hsingle; [|right].
  - rewrite Hsingle by (by left). cbv beta iota. rewrite Hmode.
    by mode_tests.
  - by destruct (Hrange eq_refl) as [-> | ->];
      [|destruct (truthy (target_temp_low kw))].
Qed.

Lemma set_temperature_ignored_witness :
  let s := Control4Climate.__init__ "climate.hall"
             {[ "HVAC_MODE" := VStr "Auto";
                "COOL_SETPOINT_F" := VNum 76 ]} in
  Control4Climate.async_set_temperature (λ _ _, Ok tt)
    (Kwargs None None (Some 72%Q)) s = (Ok tt, s).
Proof.
  intros s.
  apply (set_temperature_ignored (λ _ _, Ok tt) s _ HEAT_COOL).
  - reflexivity.
  - intros _. by left.
  - by intros [H|H].
Defined.

(** X11.  Under [HEAT_COOL], with both bounds supplied and nonzero, a
    director that accepts the commands and, in case the float difference
    high - low is below [MIN_TEMP_RANGE], a numeric previous high
    setpoint, the method returns normally and changes nothing but the
    commands sent: exactly a heat setpoint followed by a cool setpoint.
    The pair is the requested one when the float difference is not below
    [MIN_TEMP_RANGE]; otherwise it is the low bound with the float sum
    low + 2, or the float difference high - 2 with the high bound.  So one
    of the requested bounds is always sent unchanged. *)
Theorem set_temperature_range_sends_pair
    (hub : list command → command → result unit) (s : state)
    (low high prev : Q) (temp : option Q) :
  hub_accepts hub →
  Control4Climate.hvac_mode s = Ok HEAT_COOL →
  ¬ (low == 0)%Q → ¬ (high == 0)%Q →
  (SFltb (float_sub high low) (float_of 2) = true →
     _extra_state_attributes s !! "COOL_SETPOINT_F" = Some (VNum prev)) →
  ∃ heat cool,
    Control4Climate.async_set_temperature hub
      (Kwargs (Some low) (Some high) temp) s
    = (Ok tt,
       State (entity_id s) (_attr_available s) (_extra_state_attributes s)
         (scheduled_updates s)
         (hub_calls s ++ [setHeatSetpoint heat; setCoolSetpoint cool])
         (log_records s)) ∧
    (SFltb (float_sub high low) (float_of 2) = false →
       heat = low ∧ cool = high) ∧
    (SFltb (float_sub high low) (float_of 2) = true →
       (heat = low ∧ cool = value_of (float_add low 2)) ∨
       (heat = value_of (float_sub high 2) ∧ cool = high)) ∧
    (heat = low ∨ cool = high).
Proof.
  intros Hhub Hmode Hlow Hhigh Hprev.
  unfold Control4Climate.async_set_temperature, try_except,
    Control4Climate.set_temperature_body.
  cbn [target_temp_low target_temp_high temperature].
  rewrite (truthy_nonzero _ Hlow), (truthy_nonzero _ Hhigh).
  cbv [mbind M_mbind M_bind read lift]. rewrite Hmode.
  rewrite (bool_decide_eq_true_2 (HEAT_COOL = HEAT_COOL)) by done.
  unfold Control4Climate.MIN_TEMP_RANGE. cbn [andb].
  destruct (SFltb (float_sub high low) (float_of 2)); cbv beta iota.
  - assert (Control4Climate.target_temperature_high s = Ok (VNum prev))
      as ->.
    { unfold Control4Climate.target_temperature_high. rewrite Hmode.
      by apply attr_lookup, Hprev. }
    cbn [num_sub].
    destruct (SFltb (SFabs (float_sub high prev)) (float_of (1 # 100)));
      cbv [mret M_mret M_ret send]; cbn [hub_calls];
      rewrite !Hhub; cbn [fst snd entity_id _attr_available
        _extra_state_attributes scheduled_updates hub_calls log_records];
      rewrite <- app_assoc.
    + exists low, (value_of (float_add low 2)).
      split_and!; [done|done|by left|by left].
    + exists (value_of (float_sub high 2)), high.
      split_and!; [done|done|by right|by right].
  - cbv [mret M_mret M_ret send]; cbn [hub_calls];
      rewrite !Hhub; cbn [fst snd entity_id _attr_available
        _extra_state_attributes scheduled_updates hub_calls log_records];
      rewrite <- app_assoc.
    exists low, high. split_and!; [done|done|done|by left].
Qed.

(** The requested floats 63.1 and 65.1 differ by less than 2 in float
    arithmetic, so the adjustment runs; the high bound is the previous
    one, so the low bound is kept, and the float sum 63.1 + 2 is sent as
    the cool setpoint.  The pair sent is less than 2 apart. *)
Lemma set_temperature_range_sends_pair_witness :
  let low := float_literal (631 # 10) in
  let high := float_literal (651 # 10) in
  let s := Control4Climate.__init__ "climate.hall"
             {[ "HVAC_MODE" := VStr "Auto";
                "COOL_SETPOINT_F" := VNum high ]} in
  ∃ heat cool,
    hub_calls
      (Control4Climate.async_set_temperature (λ _ _, Ok tt)
         (Kwargs (Some low) (Some high) None) s).2
    = [setHeatSetpoint heat; setCoolSetpoint cool] ∧
    heat = low ∧ cool = value_of (float_add low 2) ∧ (cool - heat < 2)%Q.
Proof.
  intros low high s.
  destruct (set_temperature_range_sends_pair (λ _ _, Ok tt) s
              low high high None)
    as (heat & cool & Hrun & _ & Hnarrow & _).
  - by intros history c.
  - reflexivity.
  - by intros H.
  - by intros H.
  - intros _. reflexivity.
  - exists heat, cool. rewrite Hrun. split; [reflexivity|].
    destruct Hnarrow as [[-> ->]|[-> ->]]; [reflexivity| |].
    + by split_and!.
    + exfalso. apply (f_equal (λ r, hub_calls r.2)) in Hrun.
      by vm_compute in Hrun.
Defined.

(** ** Push messages *)

Lemma written_absent fs (d : gmap string value) key :
  (∀ src, (src, key) ∈ fs → d !! src = None) → written fs d key = None.
Proof.
  induction fs as [|[src dst] fs IH]; intros Habsent; [done|].
  cbn. rewrite IH by (intros src' Hin; apply Habsent; by right).
  case_decide as Hdst; [|done]. cbn in Hdst. subst dst.
  apply Habsent. by left.
Qed.

Lemma written_present fs (d : gmap string value) src dst :
  NoDup fs.*2 → (src, dst) ∈ fs → written fs d dst = d !! src.
Proof.
  induction fs as [|[src' dst'] fs IH]; intros Hnd Hin;
    [by apply elem_of_nil in Hin|].
  rewrite fmap_cons in Hnd. apply NoDup_cons in Hnd as [Hfresh Hnd].
  cbn. apply elem_of_cons in Hin as [[= <- <-]|Hin].
  - rewrite written_other by done. by rewrite decide_True.
  - rewrite (IH Hnd Hin). destruct (d !! src) as [v|] eqn:Hv; [done|].
    case_decide as Hdst; [|done]. cbn in Hdst, Hfresh. subst dst'.
    destruct Hfresh. apply list_elem_of_fmap. by exists (src, dst).
Qed.

Lemma climate_fields_store_keys_distinct : NoDup climate_fields.*2.
Proof. apply (bool_decide_unpack _). by vm_compute. Qed.

(** X12.  A data message with a dict payload is merged field by field: for
    each of the fifteen recognized payload keys that is present, the value
    is copied unchanged to its store key; every store key whose payload
    key is absent, and every other store key, keeps its value.  This holds
    for every base-class helper that leaves the store alone. *)
Theorem data_message_merges_present_fields
    (helper : value → M state unit) (s : state)
    (msg d : gmap string value) :
  store_inert helper →
  msg !! "evtName" = Some (VStr "OnDataToUI") →
  msg !! "data" = Some (VDict d) →
  let s' := (Control4Climate._update_callback_with helper (VDict msg) s).2 in
  (∀ src dst v, (src, dst) ∈ climate_fields → d !! src = Some v →
     _extra_state_attributes s' !! dst = Some v) ∧
  (∀ key, (∀ src, (src, key) ∈ climate_fields → d !! src = None) →
     _extra_state_attributes s' !! key = _extra_state_attributes s !! key).
Proof.
  intros Hinert Hname Hdata s'.
  assert (_extra_state_attributes s' =
          merge_fields climate_fields d (_extra_state_attributes s)) as ->.
  { unfold s'.
    rewrite (update_callback_data helper msg _ d s Hname eq_refl Hdata).
    unfold mbind, M_mbind, M_bind.
    pose proof (Hinert (VDict d) (data_merged d s)) as Hkept.
    by destruct (helper (VDict d) (data_merged d s)) as [[[]|e] s1]. }
  split.
  - intros src dst v Hfield Hv.
    by rewrite lookup_merge_fields,
      (written_present _ _ src dst climate_fields_store_keys_distinct Hfield),
      Hv.
  - intros key Habsent.
    by rewrite lookup_merge_fields, (written_absent _ _ _ Habsent).
Qed.

Lemma data_message_merges_present_fields_witness :
  let s := Control4Climate.__init__ "climate.hall"
             {[ "HVAC_MODE" := VStr "Off"; "SCALE" := VStr "F" ]} in
  let d : gmap string value :=
    {[ "hvac_mode" := VStr "Cool"; "setpoint_cool_f" := VNum 74 ]} in
  let msg : gmap string value :=
    {[ "evtName" := VStr "OnDataToUI"; "data" := VDict d ]} in
  let s' := (Control4Climate._update_callback (VDict msg) s).2 in
  _extra_state_attributes s' !! "COOL_SETPOINT_F" = Some (VNum 74) ∧
  _extra_state_attributes s' !! "SCALE" = Some (VStr "F").
Proof.
  intros s d msg s'.
  destruct (data_message_merges_present_fields
              _data_to_extra_state_attributes s msg d)
    as [Hcopied Hkept].
  - by intros data s0.
  - reflexivity.
  - reflexivity.
  - split.
    + apply (Hcopied "setpoint_cool_f"); [|reflexivity].
      apply (bool_decide_unpack _). by vm_compute.
    + rewrite Hkept; [reflexivity|].
      intros src Hsrc. exfalso.
      assert ("SCALE" ∈ climate_fields.*2) as Hkey.
      { apply list_elem_of_fmap. by exists (src, "SCALE"). }
      revert Hkey. apply (bool_decide_unpack _). by vm_compute.
Defined.

(** X13.  A data envelope without a ["data"] field marks the entity
    available and then raises [KeyError("data")]: the store is unchanged
    and, because the raise skips the end of the callback, no state refresh
    is scheduled.  The same holds for the climate callback (whatever the
    helper) and for the fan callback. *)
Theorem data_envelope_without_payload
    (helper : value → M state unit) (s : state) (msg : gmap string value) :
  msg !! "evtName" = Some (VStr "OnDataToUI") →
  msg !! "data" = None →
  let marked := State (entity_id s) true (_extra_state_attributes s)
                  (scheduled_updates s) (hub_calls s) (log_records s) in
  Control4Climate._update_callback_with helper (VDict msg) s
    = (Raise (KeyError (VStr "data")), marked) ∧
  Control4Fan._update_callback (Control4Fan.Frame s (VDict msg))
    = (Raise (KeyError (VStr "data")), Control4Fan.Frame marked (VDict msg)).
Proof.
  intros Hname Hdata marked. split.
  - unfold Control4Climate._update_callback_with.
    cbv [mbind M_mbind M_bind lift getitem]. by rewrite Hname, Hdata.
  - unfold Control4Fan._update_callback.
    cbv [mbind M_mbind M_bind lift gets getitem Control4Fan.message].
    by rewrite Hname, Hdata.
Qed.

Lemma data_envelope_without_payload_witness :
  let s := State "fan.porch" false {[ "CURRENT_SPEED" := VNum 2 ]} 0 [] [] in
  let m := VDict {[ "evtName" := VStr "OnDataToUI" ]} in
  let r := Control4Fan._update_callback (Control4Fan.Frame s m) in
  r.1 = Raise (KeyError (VStr "data")) ∧
  _attr_available (Control4Fan.self r.2) = true ∧
  scheduled_updates (Control4Fan.self r.2) = 0%nat.
Proof.
  intros s m r. unfold r, m.
  destruct (data_envelope_without_payload _data_to_extra_state_attributes s
              {[ "evtName" := VStr "OnDataToUI" ]}) as [_ ->];
    [reflexivity|reflexivity|done].
Defined.

(** ** The fan callback on every message *)

Section fan_view.

Import Control4Fan.

(** A stanza leaves the entity as it was, apart from the log and from at
    most one write, under its own store key. *)
Lemma stage_self debug data outer inner dst f :
  let s := self f in
  let s' := self (stage debug data outer inner dst f).2 in
  _attr_available s' = _attr_available s ∧
  scheduled_updates s' = scheduled_updates s ∧
  hub_calls s' = hub_calls s ∧
  (_extra_state_attributes s' = _extra_state_attributes s ∨
   ∃ v, _extra_state_attributes s' = <[dst := v]> (_extra_state_attributes s)).
Proof.
  destruct f as [[eid av a n calls log] m].
  unfold stage, mbind, M_mbind, M_bind, lift, pass, M_ret, on_self,
    pop_nested, set_attr, logger, modify.
  cbn [self message].
  destruct (contains outer data) as [[|]|e]; cbn; [|by auto..].
  destruct (getitem data outer) as [sub|e]; cbn; [|by auto].
  destruct (contains inner sub) as [[|]|e]; cbn; [|by auto..].
  destruct debug; cbn;
    (destruct m as [|b|q|t|l|msg]; cbn; [by auto..|]);
    (destruct (msg !! "data") as [[|b|q|t|l|d]|]; cbn; [by auto..| |by auto]);
    (destruct (d !! outer) as [current|]; cbn; [|by auto]);
    (destruct (pop current inner) as [[v current']|e]; cbn; [|by auto]);
    split_and!; try done; right; by exists v.
Qed.

Lemma fan_callback_view s m :
  let r := _update_callback (Frame s m) in
  let s' := self r.2 in
  scheduled_updates s' =
    (if r.1 is Ok _ then S (scheduled_updates s) else scheduled_updates s) ∧
  _attr_available s' =
    match m with
    | VBool false => false
    | _ => if is_data_envelope m then true else _attr_available s
    end ∧
  hub_calls s' = hub_calls s ∧
  ∃ a1,
    (a1 = _extra_state_attributes s ∨
     ∃ v, a1 = <["CURRENT_SPEED" := v]> (_extra_state_attributes s)) ∧
    (_extra_state_attributes s' = a1 ∨
     ∃ p, _extra_state_attributes s' = <["PRESET_SPEED" := p]> a1).
Proof.
  cbv zeta. rewrite update_callback_stages.
  cbv [mbind M_mbind M_bind gets lift message pass M_ret].
  assert (∀ a : gmap string value, ∃ a1,
            (a1 = a ∨ ∃ v, a1 = <["CURRENT_SPEED" := v]> a) ∧
            (a = a1 ∨ ∃ p, a = <["PRESET_SPEED" := p]> a1)) as Hsame.
  { intros a. exists a. split; by left. }
  destruct m as [|[|]|q|t|l|msg]; try (by split_and!; [..|apply Hsame]).
  unfold is_data_envelope, envelope_name. cbn [getitem].
  destruct (msg !! "evtName") as [e|];
    [|by split_and!; [..|apply Hsame]].
  destruct (eq_str e "OnDataToUI");
    [|by split_and!; [..|apply Hsame]].
  set (s0 := State (entity_id s) true (_extra_state_attributes s)
               (scheduled_updates s) (hub_calls s) (log_records s)).
  change (on_self (set_available true) (Frame s (VDict msg)))
    with (Ok tt, Frame s0 (VDict msg)).
  cbv iota beta.
  destruct (msg !! "data") as [data|];
    [|by split_and!; [..|apply Hsame]].
  pose proof (stage_self true data "fan_state" "current_speed"
                "CURRENT_SPEED" (Frame s0 (VDict msg))) as H1.
  destruct (stage true data "fan_state" "current_speed" "CURRENT_SPEED"
              (Frame s0 (VDict msg))) as [r1 f1].
  cbn [snd self] in H1. destruct H1 as (Hav1 & Hn1 & Hcalls1 & Ha1).
  unfold s0 in Hav1, Hn1, Hcalls1, Ha1.
  cbn [_attr_available scheduled_updates hub_calls _extra_state_attributes]
    in Hav1, Hn1, Hcalls1, Ha1.
  destruct r1 as [[]|e1].
  2:{ cbn [fst snd]. split_and!; [done..|].
      exists (_extra_state_attributes (self f1)). split; [|by left].
      destruct Ha1 as [->|[v ->]]; [by left|right; by exists v]. }
  pose proof (stage_self false data "fan_setup" "preset_speed"
                "PRESET_SPEED" f1) as H2.
  destruct (stage false data "fan_setup" "preset_speed" "PRESET_SPEED" f1)
    as [r2 f2].
  cbn [snd] in H2. destruct H2 as (Hav2 & Hn2 & Hcalls2 & Ha2).
  assert (∃ a1,
    (a1 = _extra_state_attributes s ∨
     ∃ v, a1 = <["CURRENT_SPEED" := v]> (_extra_state_attributes s)) ∧
    (_extra_state_attributes (self f2) = a1 ∨
     ∃ p, _extra_state_attributes (self f2) = <["PRESET_SPEED" := p]> a1))
    as Hstore.
  { exists (_extra_state_attributes (self f1)). split; [done|].
    destruct Ha2 as [->|[p ->]]; [by left|right; by exists p]. }
  destruct r2 as [[]|e2]; cbn;
    (split_and!; [congruence..|exact Hstore]).
Qed.

End fan_view.

(** X14.  Whatever the message, the fan callback schedules exactly one
    state refresh when it returns normally and none when it raises; it
    sends nothing to the director; and afterwards the entity is
    unavailable after the disconnect sentinel, available after every data
    envelope (also when the payload is missing or malformed and the
    callback raises), and as available as before after any other
    message. *)
Theorem fan_callback_refresh_and_availability (s : state) (m : value) :
  let r := Control4Fan._update_callback (Control4Fan.Frame s m) in
  let s' := Control4Fan.self r.2 in
  scheduled_updates s' =
    (if r.1 is Ok _ then S (scheduled_updates s) else scheduled_updates s) ∧
  _attr_available s' =
    match m with
    | VBool false => false
    | _ => if is_data_envelope m then true else _attr_available s
    end ∧
  hub_calls s' = hub_calls s.
Proof.
  intros r s'. destruct (fan_callback_view s m) as (Hn & Hav & Hcalls & _).
  by split_and!.
Qed.

(** X15.  Whatever the message, the fan callback writes no store key other
    than ["CURRENT_SPEED"] and ["PRESET_SPEED"]: every other key has the
    same value, or the same absence, after the callback as before. *)
Theorem fan_callback_writes_two_keys
    (s : state) (m : value) (key : string) :
  key ≠ "CURRENT_SPEED" → key ≠ "PRESET_SPEED" →
  _extra_state_attributes
    (Control4Fan.self
       (Control4Fan._update_callback (Control4Fan.Frame s m)).2) !! key
  = _extra_state_attributes s !! key.
Proof.
  intros Hspeed Hpreset.
  destruct (fan_callback_view s m) as (_ & _ & _ & a1 & Ha1 & Ha).
  destruct Ha as [->|[p ->]]; [|rewrite lookup_insert_ne by done];
    (destruct Ha1 as [->|[v ->]]; [|rewrite lookup_insert_ne by done]);
    done.
Qed.

Lemma fan_callback_writes_two_keys_witness :
  let s := Control4Entity.__init__ "fan.porch"
             {[ "CURRENT_SPEED" := VNum 1; "LIGHT_LEVEL" := VNum 80 ]} in
  let m := VDict {[ "evtName" := VStr "OnDataToUI";
                    "data" := VDict {[ "fan_state" :=
                                         VDict {[ "current_speed" := VNum 3 ]};
                                       "light_level" := VNum 20 ]} ]} in
  _extra_state_attributes
    (Control4Fan.self
       (Control4Fan._update_callback (Control4Fan.Frame s m)).2)
    !! "LIGHT_LEVEL" = Some (VNum 80).
Proof.
  intros s m.
  rewrite (fan_callback_writes_two_keys s m "LIGHT_LEVEL");
    [reflexivity|discriminate|discriminate].
Defined.

(** X16.  A data message whose payload has a ["fan_state"] dict with a
    ["current_speed"] stores that speed under ["CURRENT_SPEED"], whatever
    else the payload holds, so that [is_on] afterwards tells whether the
    speed differs from 0; and the speed is removed from the message the
    caller handed in. *)
Theorem fan_speed_stored_and_popped
    (s : state) (msg d fan_state : gmap string value) (speed : value) :
  msg !! "evtName" = Some (VStr "OnDataToUI") →
  msg !! "data" = Some (VDict d) →
  d !! "fan_state" = Some (VDict fan_state) →
  fan_state !! "current_speed" = Some speed →
  let f' := (Control4Fan._update_callback
               (Control4Fan.Frame s (VDict msg))).2 in
  _extra_state_attributes (Control4Fan.self f') !! "CURRENT_SPEED"
    = Some speed ∧
  Control4Fan.is_on (Control4Fan.self f')
    = Ok (VBool (negb (eq_num speed 0))) ∧
  ∃ d', Control4Fan.message f' = VDict (<["data" := VDict d']> msg) ∧
        d' !! "fan_state" = Some (VDict (delete "current_speed" fan_state)).
Proof.
  intros Hname Hdata Hstate Hspeed f'.
  destruct (fan_callback_data s msg _ d Hname eq_refl Hdata)
    as (r & s' & Hrun & Hstore).
  unfold f'. rewrite Hrun. cbn [snd Control4Fan.self Control4Fan.message].
  assert (probe d "fan_state" "current_speed" = Take speed fan_state)
    as Hprobe by (unfold probe; by rewrite Hstate, Hspeed).
  assert (_extra_state_attributes s' !! "CURRENT_SPEED" = Some speed ∧
          (fan_effect (_extra_state_attributes s, d)).2 !! "fan_state"
            = Some (VDict (delete "current_speed" fan_state))) as [Ha Hd].
  { rewrite Hstore. unfold fan_effect, stage_effect. cbn [fst snd].
    rewrite Hprobe. cbn [fst snd].
    destruct (probe _ "fan_setup" "preset_speed"); cbn [fst snd];
      split;
      first [ apply lookup_insert_eq
            | rewrite lookup_insert_ne by done; apply lookup_insert_eq ]. }
  split_and!; [done| |by eexists].
  unfold Control4Fan.is_on. by rewrite (attr_lookup _ _ _ Ha).
Qed.

Lemma fan_speed_stored_and_popped_witness :
  let s := Control4Entity.__init__ "fan.porch"
             {[ "CURRENT_SPEED" := VNum 0 ]} in
  let msg : gmap string value :=
    {[ "evtName" := VStr "OnDataToUI";
       "data" := VDict {[ "fan_state" :=
                            VDict {[ "current_speed" := VNum 2 ]} ]} ]} in
  Control4Fan.is_on
    (Control4Fan.self
       (Control4Fan._update_callback
          (Control4Fan.Frame s (VDict msg))).2)
  = Ok (VBool true).
Proof.
  intros s msg.
  destruct (fan_speed_stored_and_popped s msg
              {[ "fan_state" := VDict {[ "current_speed" := VNum 2 ]} ]}
              {[ "current_speed" := VNum 2 ]} (VNum 2))
    as (_ & Hon & _); [reflexivity..|].
  exact Hon.
Defined.

(** X17.  With a known preset, [async_turn_on] sends exactly one
    [setSpeed], and never with a speed equal to 0: the preset itself when
    it is not 0, and the number 1 when it is.  [async_turn_off] sends
    [setSpeed(0)].  So the [is_on] read is true on a store holding the
    speed sent by turning on, and false on one holding the speed sent by
    turning off. *)
Theorem turn_on_never_sends_zero
    (hub : list command → command → result unit) (s : state)
    (preset : value) :
  _extra_state_attributes s !! "PRESET_SPEED" = Some preset →
  ∃ speed,
    hub_calls (Control4Fan.async_turn_on hub s).2
      = hub_calls s ++ [setSpeed speed] ∧
    eq_num speed 0 = false ∧
    (eq_num preset 0 = false → speed = preset) ∧
    (eq_num preset 0 = true → speed = VNum 1) ∧
    (∀ s', _extra_state_attributes s' !! "CURRENT_SPEED" = Some speed →
           Control4Fan.is_on s' = Ok (VBool true)) ∧
    hub_calls (Control4Fan.async_turn_off hub s).2
      = hub_calls s ++ [setSpeed (VNum 0)] ∧
    (∀ s', _extra_state_attributes s' !! "CURRENT_SPEED" = Some (VNum 0) →
           Control4Fan.is_on s' = Ok (VBool false)).
Proof.
  intros Hpreset.
  destruct (turn_on_off_dispatch hub s preset Hpreset) as [Hoff Hon].
  exists (if eq_num preset 0 then VNum 1 else preset).
  assert (eq_num (if eq_num preset 0 then VNum 1 else preset) 0 = false)
    as Hnonzero by (by destruct (eq_num preset 0) eqn:Hzero).
  split_and!; [done|done| | | |done|].
  - by intros ->.
  - by intros ->.
  - intros s' Hspeed. unfold Control4Fan.is_on.
    rewrite (attr_lookup _ _ _ Hspeed).
    cbv [mbind result_mbind result_bind]. by rewrite Hnonzero.
  - intros s' Hspeed. unfold Control4Fan.is_on.
    by rewrite (attr_lookup _ _ _ Hspeed).
Qed.

Lemma turn_on_never_sends_zero_witness :
  let s := Control4Entity.__init__ "fan.porch"
             {[ "CURRENT_SPEED" := VNum 0; "PRESET_SPEED" := VNum 0 ]} in
  ∃ speed,
    hub_calls (Control4Fan.async_turn_on (λ _ _, Ok tt) s).2
      = [setSpeed speed] ∧ eq_num speed 0 = false ∧ speed = VNum 1.
Proof.
  intros s.
  destruct (turn_on_never_sends_zero (λ _ _, Ok tt) s (VNum 0))
    as (speed & Hcalls & Hnonzero & _ & Hone & _); [reflexivity|].
  exists speed. split_and!; [exact Hcalls|exact Hnonzero|].
  apply Hone. reflexivity.
Defined.

(** ** Discovery *)

Section discovery.

Import Control4Climate.

Variable entity_type : value.
Variable director : value → result (gmap string value).

Local Abbreviation find := (find_parent).
Local Abbreviation look := (inspect entity_type).
Local Abbreviation loop := (setup_loop entity_type director).

Lemma find_parent_result items parent_id found manufacturer name model :
  find items parent_id found = Ok (manufacturer, name, model) →
  found = (manufacturer, name, model) ∨
  ∃ parent : gmap string value,
    VDict parent ∈ items ∧
    (∃ pid, parent !! "id" = Some pid ∧ py_eq pid parent_id = true) ∧
    parent !! "manufacturer" = Some manufacturer ∧
    parent !! "name" = Some name ∧
    parent !! "model" = Some model.
Proof.
  revert found. induction items as [|item items IH]; intros found.
  { cbn. intros [= ->]. by left. }
  cbn [find_parent]. cbv [mbind result_mbind result_bind getitem].
  destruct item as [|b|q|t|l|parent]; try done.
  destruct (parent !! "id") as [pid|] eqn:Hid; [|done].
  destruct (py_eq pid parent_id) eqn:Heq; cbv beta iota.
  - destruct (parent !! "manufacturer") as [m|] eqn:Hm; cbv beta iota;
      [|done].
    destruct (parent !! "name") as [n|] eqn:Hn; cbv beta iota; [|done].
    destruct (parent !! "model") as [md|] eqn:Hmd; cbv beta iota; [|done].
    intros [[= <- <- <-]|(p & Hin & Hp)]%IH.
    + right. exists parent. split_and!; [left|by exists pid|done..].
    + right. exists p. split; [by right|done].
  - intros [?|(p & Hin & Hp)]%IH; [by left|].
    right. exists p. split; [by right|done].
Qed.

Lemma inspect_candidate items item item_id build :
  look items item = Ok (Some (item_id, build)) →
  ∃ (d : gmap string value) name area parent_id manufacturer device model,
    item = VDict d ∧
    (∃ item_type, d !! "type" = Some item_type ∧
                  py_eq item_type entity_type = true) ∧
    d !! "proxy" = Some (VStr CONTROL4_PROXY) ∧
    d !! "name" = Some name ∧ d !! "id" = Some item_id ∧
    d !! "roomName" = Some area ∧ d !! "parentId" = Some parent_id ∧
    find items parent_id (VNone, VNone, VNone)
      = Ok (manufacturer, device, model) ∧
    build = EntityArgs name item_id device manufacturer model parent_id area.
Proof.
  unfold inspect. cbv [mbind result_mbind result_bind getitem].
  destruct item as [|b|q|t|l|d]; try done.
  destruct (d !! "type") as [item_type|] eqn:Htype; [|done].
  destruct (py_eq item_type entity_type) eqn:Heq; [|done].
  destruct (d !! "proxy") as [proxy|] eqn:Hproxy; [|done].
  destruct (eq_str proxy CONTROL4_PROXY) eqn:Hp; [|done].
  apply eq_str_true in Hp as ->.
  destruct (d !! "name") as [name|] eqn:Hname; [|done].
  destruct (d !! "id") as [id|] eqn:Hid; [|done].
  destruct (d !! "roomName") as [area|] eqn:Harea; [|done].
  destruct (d !! "parentId") as [parent_id|] eqn:Hparent; [|done].
  destruct (find items parent_id (VNone, VNone, VNone))
    as [[[manufacturer device] model]|e] eqn:Hfind; [|done].
  intros [= <- <-].
  exists d, name, area, parent_id, manufacturer, device, model.
  split_and!; eauto.
Qed.

(** Every entity the loop adds comes from the record it is looking at. *)
Lemma setup_loop_entities all items acc log out log' :
  loop all items acc log = (Ok out, log') →
  ∀ e, e ∈ out →
    e ∈ acc ∨
    (∃ (d : gmap string value) build,
       VDict d ∈ items ∧
       look all (VDict d) = Ok (Some (arg_idx e, build)) ∧
       ∃ attributes, director (arg_idx e) = Ok attributes ∧
                     e = build attributes).
Proof.
  revert acc log. induction items as [|item items IH]; intros acc log.
  { cbn. intros [= <- <-] e He. by left. }
  cbn [setup_loop].
  destruct (look all item) as [[[item_id build]|]|err] eqn:Hlook.
  - cbv [mbind M_mbind M_bind lift].
    destruct (director item_id) as [attributes|err] eqn:Hdir; [|done].
    intros Hrun e He.
    destruct (IH _ _ Hrun e He) as [Hacc|(d & b & Hin & Hb)].
    + apply elem_of_app in Hacc as [?|Hlast]; [by left|].
      apply list_elem_of_singleton in Hlast as ->. right.
      destruct (inspect_candidate _ _ _ _ Hlook)
        as (d & name & area & parent & m & dev & md & -> & _ & _ & _ & _
            & _ & _ & _ & ->).
      exists d, (EntityArgs name item_id dev m md parent area).
      split_and!; [left|done|by exists attributes].
    + right. exists d, b. split; [by right|done].
  - intros Hrun e He.
    destruct (IH _ _ Hrun e He) as [?|(d & b & Hin & Hb)]; [by left|].
    right. exists d, b. split; [by right|done].
  - assert (∀ log0,
              loop all items acc log0 = (Ok out, log') →
              ∀ e, e ∈ out →
                e ∈ acc ∨
                (∃ (d : gmap string value) build,
                   VDict d ∈ item :: items ∧
                   look all (VDict d) = Ok (Some (arg_idx e, build)) ∧
                   ∃ attributes, director (arg_idx e) = Ok attributes ∧
                                 e = build attributes)) as Hskip.
    { intros log0 Hrun e He.
      destruct (IH _ _ Hrun e He) as [?|(d & b & Hin & Hb)]; [by left|].
      right. exists d, b. split; [by right|done]. }
    destruct err; try done. apply Hskip.
Qed.

End discovery.

(** X18.  Every entity that [async_setup_entry] hands to the platform is
    built from a listing record whose type is the Control4 entity type and
    whose proxy is ["thermostatV2"]: its name, id, area and parent id are
    that record's fields and its attributes are what the director returned
    for its id.  Its device name, manufacturer and model are those of a
    listing record whose id equals its parent id, or all [None]. *)
Theorem setup_entities_come_from_listing
    (entity_type : value) (director : value → result (gmap string value))
    (items : list value) (log log' : list (log_level * string))
    (entities : list Control4Climate.entity_args) :
  Control4Climate.async_setup_entry entity_type director items log
    = (Ok entities, log') →
  ∀ e, e ∈ entities →
    built_from entity_type director items e ∧ device_from items e.
Proof.
  intros Hrun e He.
  destruct (setup_loop_entities entity_type director _ _ _ _ _ _ Hrun e He)
    as [Hnil|(d & build & Hin & Hlook & attributes & Hdir & ->)];
    [by apply elem_of_nil in Hnil|].
  destruct (inspect_candidate _ _ _ _ _ Hlook)
    as (d' & name & area & parent & m & dev & md & [= <-] & Htype & Hproxy
        & Hname & Hid & Harea & Hparent & Hfind & ->).
  cbn [Control4Climate.arg_idx] in *. split.
  - exists d. by split_and!.
  - destruct (find_parent_result _ _ _ _ _ _ Hfind)
      as [[= <- <- <-]|(p & Hp)]; [by left|right; by exists p].
Qed.

Lemma setup_entities_come_from_listing_witness :
  let thermostat : gmap string value :=
    {[ "type" := VNum 7; "proxy" := VStr "thermostatV2";
       "name" := VStr "Hall"; "id" := VNum 41; "roomName" := VStr "Hall";
       "parentId" := VNum 40 ]} in
  let device : gmap string value :=
    {[ "type" := VNum 6; "id" := VNum 40; "name" := VStr "T-stat";
       "manufacturer" := VStr "Control4"; "model" := VStr "C4-THERM" ]} in
  let items := [VDict device; VDict thermostat] in
  let director := λ _ : value, Ok ({[ "SCALE" := VStr "F" ]} : gmap string value) in
  let e := Control4Climate.EntityArgs (VStr "Hall") (VNum 41) (VStr "T-stat")
             (VStr "Control4") (VStr "C4-THERM") (VNum 40) (VStr "Hall")
             {[ "SCALE" := VStr "F" ]} in
  Control4Climate.async_setup_entry (VNum 7) director items [] = (Ok [e], []) ∧
  built_from (VNum 7) director items e ∧ device_from items e.
Proof.
  intros thermostat device items director e.
  assert (Control4Climate.async_setup_entry (VNum 7) director items []
          = (Ok [e], [])) as Hrun by (by vm_compute).
  split; [exact Hrun|].
  apply (setup_entities_come_from_listing _ _ _ _ _ _ Hrun). by left.
Defined.

Section discovery_total.

Import Control4Climate.

Variable entity_type : value.
Variable director : value → result (gmap string value).

Local Abbreviation look := (inspect entity_type).
Local Abbreviation loop := (setup_loop entity_type director).

Lemma find_parent_records items parent_id found :
  Forall is_record items →
  (∃ r, find_parent items parent_id found = Ok r) ∨
  ∃ key, find_parent items parent_id found = Raise (KeyError key).
Proof.
  intros Hrecords. revert found.
  induction Hrecords as [|item items [d ->] _ IH]; intros found;
    [left; by eexists|].
  cbn [find_parent]. cbv [mbind result_mbind result_bind getitem].
  destruct (d !! "id") as [pid|]; [|right; by eexists].
  destruct (py_eq pid parent_id); [|apply IH].
  destruct (d !! "manufacturer"); [|right; by eexists].
  destruct (d !! "name"); [|right; by eexists].
  destruct (d !! "model"); [|right; by eexists].
  apply IH.
Qed.

Lemma inspect_records items item :
  is_record item → Forall is_record items →
  (∃ candidate, look items item = Ok candidate) ∨
  ∃ key, look items item = Raise (KeyError key).
Proof.
  intros [d ->] Hrecords. unfold inspect.
  cbv [mbind result_mbind result_bind getitem].
  destruct (d !! "type") as [item_type|]; [|right; by eexists].
  destruct (py_eq item_type entity_type); [|left; by eexists].
  destruct (d !! "proxy") as [proxy|]; [|right; by eexists].
  destruct (eq_str proxy CONTROL4_PROXY); [|left; by eexists].
  destruct (d !! "name"); [|right; by eexists].
  destruct (d !! "id"); [|right; by eexists].
  destruct (d !! "roomName"); [|right; by eexists].
  destruct (d !! "parentId") as [parent_id|]; [|right; by eexists].
  destruct (find_parent_records items parent_id (VNone, VNone, VNone)
              Hrecords) as [[[[m n] md] ->]|[key ->]];
    [left|right]; by eexists.
Qed.

Lemma setup_loop_records all items acc log :
  Forall is_record all → Forall is_record items →
  (∀ item_id, ∃ attributes, director item_id = Ok attributes) →
  ∃ out extra,
    loop all items acc log = (Ok out, log ++ extra) ∧
    (length out + length extra ≤ length acc + length items)%nat ∧
    Forall (λ record, record = skipped_record) extra.
Proof.
  intros Hall Hitems Hdirector. revert acc log.
  induction Hitems as [|item items Hitem _ IH]; intros acc log.
  { exists acc, []. rewrite app_nil_r. split_and!; [done|cbn; lia|done]. }
  cbn [setup_loop].
  destruct (inspect_records all item Hitem Hall)
    as [[[[item_id build]|] ->]|[key ->]].
  - destruct (Hdirector item_id) as [attributes Hattributes].
    cbv [mbind M_mbind M_bind lift]. rewrite Hattributes.
    destruct (IH (acc ++ [build attributes]) log)
      as (out & extra & -> & Hlen & Hextra).
    exists out, extra. split_and!; [done| |done].
    rewrite length_app in Hlen. cbn in Hlen |- *. lia.
  - destruct (IH acc log) as (out & extra & -> & Hlen & Hextra).
    exists out, extra. split_and!; [done|cbn; lia|done].
  - cbv [mbind M_mbind M_bind modify].
    destruct (IH acc (log ++ [skipped_record]))
      as (out & extra & Hrun & Hlen & Hextra).
    exists out, (skipped_record :: extra).
    split_and!; [|cbn; lia|by constructor].
    unfold skipped_record in Hrun. rewrite Hrun.
    by rewrite <- app_assoc.
Qed.

Lemma find_parent_without_id items (d : gmap string value)
    parent_id found r :
  VDict d ∈ items → d !! "id" = None →
  find_parent items parent_id found ≠ Ok r.
Proof.
  intros Hin Hid. revert found.
  induction items as [|item items IH]; intros found;
    [by apply elem_of_nil in Hin|].
  cbn [find_parent]. cbv [mbind result_mbind result_bind getitem].
  apply elem_of_cons in Hin as [<-|Hin]; [by rewrite Hid|].
  destruct item as [|b|q|t|l|p]; try done.
  destruct (p !! "id") as [pid|]; [|done].
  destruct (py_eq pid parent_id); [|by apply IH].
  destruct (p !! "manufacturer"); [|done].
  destruct (p !! "name"); [|done].
  destruct (p !! "model"); [|done].
  by apply IH.
Qed.

Lemma setup_loop_keeps_entities all items acc log out log' :
  loop all items acc log = (Ok out, log') → ∀ e, e ∈ acc → e ∈ out.
Proof.
  revert acc log. induction items as [|item items IH]; intros acc log.
  { cbn. by intros [= <- <-]. }
  cbn [setup_loop].
  destruct (look all item) as [[[item_id build]|]|err].
  - cbv [mbind M_mbind M_bind lift].
    destruct (director item_id) as [attributes|err]; [|done].
    intros Hrun e He. apply (IH _ _ Hrun). apply elem_of_app. by left.
  - apply IH.
  - destruct err; try done. apply IH.
Qed.

End discovery_total.

(** X19.  When every entry of the listing is a mapping and the director
    answers every attribute request, [async_setup_entry] returns normally
    however many entries lack fields: each entry gives at most one entity
    or one logged record, never both, and the only records logged are the
    error for unknown device properties. *)
Theorem setup_survives_malformed_records
    (entity_type : value) (director : value → result (gmap string value))
    (items : list value) :
  Forall is_record items →
  (∀ item_id, ∃ attributes, director item_id = Ok attributes) →
  ∃ entities log,
    Control4Climate.async_setup_entry entity_type director items []
      = (Ok entities, log) ∧
    (length entities + length log ≤ length items)%nat ∧
    Forall (λ record, record = skipped_record) log.
Proof.
  intros Hrecords Hdirector.
  destruct (setup_loop_records entity_type director items items [] []
              Hrecords Hrecords Hdirector)
    as (entities & log & Hrun & Hlen & Hlog).
  exists entities, log. by split_and!.
Qed.

Lemma setup_survives_malformed_records_witness :
  let items :=
    [ VDict {[ "type" := VNum 7; "id" := VNum 1 ]};
      VDict {[ "type" := VNum 7; "proxy" := VStr "thermostatV2";
               "name" := VStr "Hall"; "id" := VNum 2;
               "roomName" := VStr "Hall"; "parentId" := VNum 9 ]};
      VDict {[ "type" := VNum 3; "id" := VNum 3 ]} ] in
  ∃ entities log,
    Control4Climate.async_setup_entry (VNum 7) (λ _, Ok ∅) items []
      = (Ok entities, log) ∧
    (length entities + length log ≤ 3)%nat.
Proof.
  intros items.
  destruct (setup_survives_malformed_records (VNum 7) (λ _, Ok ∅) items)
    as (entities & log & Hrun & Hlen & _).
  - repeat constructor; by eexists.
  - intros item_id. by eexists.
  - by exists entities, log.
Defined.

(** X20.  One listing entry without an ["id"] field empties the result:
    every candidate's search for its parent walks the whole listing and
    raises [KeyError] at that entry, so each candidate is logged and
    skipped, and whenever [async_setup_entry] returns it hands over no
    entity at all. *)
Theorem setup_entry_without_id_discovers_nothing
    (entity_type : value) (director : value → result (gmap string value))
    (items : list value) (broken : gmap string value)
    (log log' : list (log_level * string))
    (entities : list Control4Climate.entity_args) :
  VDict broken ∈ items → broken !! "id" = None →
  Control4Climate.async_setup_entry entity_type director items log
    = (Ok entities, log') →
  entities = [].
Proof.
  intros Hin Hid Hrun.
  destruct entities as [|e entities]; [done|]. exfalso.
  destruct (setup_loop_entities entity_type director _ _ _ _ _ _ Hrun e)
    as [Hnil|(d & build & _ & Hlook & _)];
    [left|by apply elem_of_nil in Hnil|].
  destruct (inspect_candidate _ _ _ _ _ Hlook)
    as (d' & name & area & parent & m & dev & md & _ & _ & _ & _ & _ & _
        & _ & Hfind & _).
  by apply (find_parent_without_id items broken parent
              (VNone, VNone, VNone) (m, dev, md) Hin Hid).
Qed.

Lemma setup_entry_without_id_discovers_nothing_witness :
  let items :=
    [ VDict {[ "type" := VNum 7; "proxy" := VStr "thermostatV2";
               "name" := VStr "Hall"; "id" := VNum 2;
               "roomName" := VStr "Hall"; "parentId" := VNum 9 ]};
      VDict {[ "type" := VNum 3; "name" := VStr "Room without id" ]} ] in
  Control4Climate.async_setup_entry (VNum 7) (λ _, Ok ∅) items []
    = (Ok [], [skipped_record]).
Proof.
  intros items.
  assert (∃ entities log,
            Control4Climate.async_setup_entry (VNum 7) (λ _, Ok ∅) items []
              = (Ok entities, log) ∧ log = [skipped_record])
    as (entities & log & Hrun & ->).
  { eexists _, _. split; by vm_compute. }
  rewrite Hrun. f_equal. f_equal.
  apply (setup_entry_without_id_discovers_nothing (VNum 7) (λ _, Ok ∅) items
           {[ "type" := VNum 3; "name" := VStr "Room without id" ]}
           [] [skipped_record] entities); [|reflexivity|exact Hrun].
  right. left.
Defined.

(** X21.  In a listing of mappings that all carry ["id"],
    ["manufacturer"], ["name"] and ["model"], and with a director that
    answers, no thermostat record is dropped: every record of the entity
    type with proxy ["thermostatV2"] that has its name, room and parent
    id is handed to the platform as an entity with those fields. *)
Theorem setup_keeps_every_complete_record
    (entity_type : value) (director : value → result (gmap string value))
    (items : list value) (d : gmap string value)
    (item_type name item_id area parent_id : value) :
  (∀ item, item ∈ items →
     ∃ p : gmap string value,
       item = VDict p ∧ is_Some (p !! "id") ∧
       is_Some (p !! "manufacturer") ∧ is_Some (p !! "name") ∧
       is_Some (p !! "model")) →
  (∀ item_id, ∃ attributes, director item_id = Ok attributes) →
  VDict d ∈ items →
  d !! "type" = Some item_type → py_eq item_type entity_type = true →
  d !! "proxy" = Some (VStr Control4Climate.CONTROL4_PROXY) →
  d !! "name" = Some name → d !! "id" = Some item_id →
  d !! "roomName" = Some area → d !! "parentId" = Some parent_id →
  ∃ entities log e,
    Control4Climate.async_setup_entry entity_type director items []
      = (Ok entities, log) ∧
    e ∈ entities ∧
    Control4Climate.arg_name e = name ∧
    Control4Climate.arg_idx e = item_id ∧
    Control4Climate.arg_device_area e = area ∧
    Control4Climate.arg_device_id e = parent_id ∧
    director item_id = Ok (Control4Climate.arg_device_attributes e).
Proof.
  intros Hitems Hdirector Hin Htype Heq Hproxy Hname Hid Harea Hparent.
  assert (Forall is_record items) as Hrecords.
  { apply Forall_forall. intros item Hitem.
    destruct (Hitems item Hitem) as (p & -> & _). by exists p. }
  assert (∀ (all : list value) found,
            (∀ item, item ∈ all → item ∈ items) →
            ∃ r, Control4Climate.find_parent all parent_id found = Ok r)
    as Hfind.
  { intros all. induction all as [|item all IH]; intros found Hsub;
      [by eexists|].
    destruct (Hitems item) as (p & -> & [pid Hpid] & [m Hm] & [n Hn]
                               & [md Hmd]); [apply Hsub; left|].
    cbn [Control4Climate.find_parent].
    cbv [mbind result_mbind result_bind getitem].
    rewrite Hpid, Hm, Hn, Hmd.
    destruct (py_eq pid parent_id); apply IH; intros i Hi; apply Hsub;
      by right. }
  destruct (Hfind items (VNone, VNone, VNone)) as [[[m dev] md] Hparents];
    [done|].
  set (build := Control4Climate.EntityArgs name item_id dev m md parent_id
                  area).
  assert (Control4Climate.inspect entity_type items (VDict d)
          = Ok (Some (item_id, build))) as Hlook.
  { unfold Control4Climate.inspect.
    cbv [mbind result_mbind result_bind getitem].
    rewrite Htype, Heq, Hproxy. cbn [eq_str].
    rewrite String.eqb_refl, Hname, Hid, Harea, Hparent, Hparents. done. }
  destruct (Hdirector item_id) as [attributes Hattributes].
  assert (∀ rest acc log,
            Forall is_record rest → VDict d ∈ rest →
            ∃ out log',
              Control4Climate.setup_loop entity_type director items rest
                acc log = (Ok out, log') ∧
              build attributes ∈ out) as Hloop.
  { intros rest. induction rest as [|item rest IH]; intros acc log Hrest Hd;
      [by apply elem_of_nil in Hd|].
    apply Forall_cons in Hrest as [Hitem Hrest].
    cbn [Control4Climate.setup_loop].
    apply elem_of_cons in Hd as [<-|Hd].
    - rewrite Hlook. cbv [mbind M_mbind M_bind lift]. rewrite Hattributes.
      destruct (setup_loop_records entity_type director items rest
                  (acc ++ [build attributes]) log Hrecords Hrest Hdirector)
        as (out & extra & Hrun & _).
      exists out, (log ++ extra). split; [done|].
      apply (setup_loop_keeps_entities _ _ _ _ _ _ _ _ Hrun).
      apply elem_of_app. right. by left.
    - destruct (inspect_records entity_type items item Hitem Hrecords)
        as [[[[i b]|] ->]|[key ->]].
      + destruct (Hdirector i) as [a Ha].
        cbv [mbind M_mbind M_bind lift]. rewrite Ha. by apply IH.
      + by apply IH.
      + cbv [mbind M_mbind M_bind modify]. by apply IH. }
  destruct (Hloop items [] [] Hrecords Hin) as (out & log' & Hrun & Hout).
  exists out, log', (build attributes). by split_and!.
Qed.

Lemma setup_keeps_every_complete_record_witness :
  let thermostat : gmap string value :=
    {[ "type" := VNum 7; "proxy" := VStr "thermostatV2";
       "name" := VStr "Hall"; "id" := VNum 41; "roomName" := VStr "Hall";
       "parentId" := VNum 40; "manufacturer" := VStr "Control4";
       "model" := VStr "proxy" ]} in
  let device : gmap string value :=
    {[ "type" := VNum 6; "id" := VNum 40; "name" := VStr "T-stat";
       "manufacturer" := VStr "Control4"; "model" := VStr "C4-THERM" ]} in
  ∃ entities log e,
    Control4Climate.async_setup_entry (VNum 7) (λ _, Ok ∅)
      [VDict device; VDict thermostat] [] = (Ok entities, log) ∧
    e ∈ entities ∧ Control4Climate.arg_idx e = VNum 41.
Proof.
  intros thermostat device.
  destruct (setup_keeps_every_complete_record (VNum 7) (λ _, Ok ∅)
              [VDict device; VDict thermostat] thermostat
              (VNum 7) (VStr "Hall") (VNum 41) (VStr "Hall") (VNum 40))
    as (entities & log & e & Hrun & He & _ & Hidx & _).
  - intros item Hitem.
    apply elem_of_cons in Hitem as [->|Hitem];
      [exists device; by split_and!; [|eexists..]|].
    apply list_elem_of_singleton in Hitem as ->.
    exists thermostat. by split_and!; [|eexists..].
  - intros item_id. by eexists.
  - right. left.
  - reflexivity.
  - reflexivity.
  - reflexivity.
  - reflexivity.
  - reflexivity.
  - reflexivity.
  - reflexivity.
  - by exists entities, log, e.
Defined.
